(** * Named Entity Linking annotation tool: the Annotator of [main.py]

    A shallow embedding of the command loop of the annotation tool and of the
    operations it dispatches to, followed by the properties of the tool's
    specification that concern them.

    Python values are modelled as follows.
    - [str] is [string]; the model covers ASCII text (one [ascii] per
      character).
    - [int] is [Z]; [float] is the kernel's binary64 [PrimFloat.float].
    - [None] is the [None] of an [option].
    - A [dict] read with [get] only is a [gmap]; a [dict] whose iteration
      order is observed, and [collections.Counter], are association lists.
    - Attribute assignment on a shared object is an update of the store the
      object lives in, addressed by a reference.
    - An exception that is raised and not caught is the [Raise] outcome of a
      state-and-error monad; the state reached so far is kept. *)

From Stdlib Require Import ZArith String Ascii List Lia Bool.
From Stdlib Require PrimFloat Uint63 FloatOps SpecFloat.
From stdpp Require Import gmap strings list pretty.

Local Open Scope string_scope.
Local Open Scope list_scope.
Local Open Scope Z_scope.

(** ** Python's string operations *)

Module PyStr.

(** [str.isspace] on ASCII: TAB, LF, VT, FF, CR, FS, GS, RS, US and space. *)
Definition is_space (c : ascii) : bool :=
  let n := N_of_ascii c in
  ((9 <=? n) && (n <=? 13) || (28 <=? n) && (n <=? 32))%N.

Fixpoint lstrip (s : string) : string :=
  match s with
  | String c r => if is_space c then lstrip r else s
  | EmptyString => EmptyString
  end.

Fixpoint rev_onto (s acc : string) : string :=
  match s with
  | String c r => rev_onto r (String c acc)
  | EmptyString => acc
  end.

Definition reverse (s : string) : string := rev_onto s EmptyString.

Definition rstrip (s : string) : string := reverse (lstrip (reverse s)).

(** [s.strip()] *)
Definition strip (s : string) : string := rstrip (lstrip s).

(** [s.startswith(p)] *)
Fixpoint startswith (p s : string) : bool :=
  match p, s with
  | EmptyString, _ => true
  | String a p', String b s' => if Ascii.eqb a b then startswith p' s' else false
  | String _ _, EmptyString => false
  end.

(** [s[n:]] for [n >= 0] *)
Fixpoint drop (n : nat) (s : string) : string :=
  match n, s with
  | O, _ => s
  | S n', String _ r => drop n' r
  | S _, EmptyString => EmptyString
  end.

(** [s[:n]] for [n >= 0] *)
Fixpoint take (n : nat) (s : string) : string :=
  match n, s with
  | O, _ => EmptyString
  | S n', String c r => String c (take n' r)
  | S _, EmptyString => EmptyString
  end.

(** [s[i:j]] for integer bounds; a bound below zero is clamped to zero
    here (the callers never pass a negative bound on purpose). *)
Definition slice (s : string) (i j : Z) : string :=
  let i' := Z.to_nat (Z.max 0 i) in
  let j' := Z.to_nat (Z.max 0 j) in
  take (j' - i') (drop i' s).

(** [p in s] *)
Fixpoint contains (p s : string) : bool :=
  startswith p s ||
  match s with
  | String _ r => contains p r
  | EmptyString => false
  end.

(** [s.split(sep, 1)] for a one-character separator: at most one cut, at
    the first occurrence of [sep]. *)
Fixpoint split_once (sep : ascii) (s : string) : string * option string :=
  match s with
  | EmptyString => (EmptyString, None)
  | String c r =>
      if Ascii.eqb c sep then (EmptyString, Some r)
      else let '(a, b) := split_once sep r in (String c a, b)
  end.

(** [s.replace(a, b)] for one-character [a] and [b] *)
Fixpoint replace_char (a b : ascii) (s : string) : string :=
  match s with
  | EmptyString => EmptyString
  | String c r => String (if Ascii.eqb c a then b else c) (replace_char a b r)
  end.

Definition lower_char (c : ascii) : ascii :=
  let n := N_of_ascii c in
  if ((65 <=? n) && (n <=? 90))%N then ascii_of_N (n + 32) else c.

(** [s.lower()] *)
Fixpoint lower (s : string) : string :=
  match s with
  | EmptyString => EmptyString
  | String c r => String (lower_char c) (lower r)
  end.

(** [n * ' '], empty for [n <= 0] *)
Definition spaces (n : Z) : string :=
  string_of_list_ascii (repeat " "%char (Z.to_nat n)).

Definition len (s : string) : Z := Z.of_nat (String.length s).

(** ['%<w>d' % n]: decimal, right-justified in a field of width [w] *)
Definition fmt_d (w : Z) (n : Z) : string :=
  let d := pretty n in spaces (w - len d) +:+ d.

(** ['%-<w>s' % s]: left-justified in a field of width [w] *)
Definition fmt_s_left (w : Z) (s : string) : string :=
  s +:+ spaces (w - len s).

Definition digit_of (c : ascii) : option Z :=
  let n := N_of_ascii c in
  if ((48 <=? n) && (n <=? 57))%N then Some (Z.of_N (n - 48)) else None.

(** The digits of an integer literal as [int] reads them: one or more
    digits, single underscores allowed between two digits.  [acc] is the
    value read so far and [prev] tells whether the previous character was a
    digit. *)
Fixpoint digits (s : string) (acc : Z) (prev : bool) : option Z :=
  match s with
  | EmptyString => if prev then Some acc else None
  | String c r =>
      match digit_of c with
      | Some d => digits r (10 * acc + d) true
      | None =>
          if Ascii.eqb c "_"%char && prev then
            match r with
            | String c' _ =>
                match digit_of c' with
                | Some _ => digits r acc false
                | None => None
                end
            | EmptyString => None
            end
          else None
      end
  end.

(** The white space [int] skips around the literal of an ASCII string: TAB,
    LF, VT, FF, CR and space, and no other character ([str.strip] takes off
    FS, GS, RS and US as well, [int] does not). *)
Definition is_c_space (c : ascii) : bool :=
  let n := N_of_ascii c in
  ((9 <=? n) && (n <=? 13) || (n =? 32))%N.

Fixpoint skip_spaces (s : string) : string :=
  match s with
  | String c r => if is_c_space c then skip_spaces r else s
  | EmptyString => EmptyString
  end.

Definition trim (s : string) : string :=
  reverse (skip_spaces (reverse (skip_spaces s))).

Fixpoint count_digits (s : string) : N :=
  match s with
  | EmptyString => 0%N
  | String c r =>
      match digit_of c with
      | Some _ => N.succ (count_digits r)
      | None => count_digits r
      end
  end.

(** [sys.get_int_max_str_digits()], at its default. *)
Definition max_str_digits : N := 4300%N.

(** [int(s)]: the white space around is skipped, then an optional sign, then
    the digits, no more of them than [max_str_digits]; [None] stands for
    [ValueError]. *)
Definition int (s : string) : option Z :=
  let t := trim s in
  if (max_str_digits <? count_digits t)%N then None
  else
    match t with
    | String "-"%char r => Z.opp <$> digits r 0 false
    | String "+"%char r => digits r 0 false
    | _ => digits t 0 false
    end.

End PyStr.

(** ** Exceptions and the state-and-error monad *)

Inductive exn : Type :=
| ValueError
| ZeroDivisionError
| OverflowError
| AttributeError
| KeyError
| EOFError
| FileNotFoundError
| RequestException.

Inductive res (A : Type) : Type :=
| Ok (a : A)
| Raise (e : exn).

Arguments Ok {A} a.
Arguments Raise {A} e.

Definition is_ok {A} (r : res A) : bool :=
  match r with Ok _ => true | Raise _ => false end.

(** ** Numbers: true division, [round] *)

Module PyNum.

(** [float(n)] for a count [0 <= n < 2^53], where the conversion is exact. *)
Definition to_float (n : Z) : PrimFloat.float :=
  PrimFloat.of_uint63 (Uint63.of_Z n).

(** [a / b] on integers: [ZeroDivisionError] when [b] is zero, else the
    binary64 quotient (correctly rounded, the operands being exact). *)
Definition true_div (a b : Z) : res PrimFloat.float :=
  if b =? 0 then Raise ZeroDivisionError
  else Ok (PrimFloat.div (to_float a) (to_float b)).

(** The integer nearest to [m * 2^e], ties going to the even one. *)
Definition half_even (m : positive) (e : Z) : Z :=
  if 0 <=? e then Z.pos m * 2 ^ e
  else
    let d := 2 ^ (- e) in
    let q := Z.pos m / d in
    let r := Z.pos m mod d in
    match 2 * r ?= d with
    | Lt => q
    | Gt => q + 1
    | Eq => if Z.even q then q else q + 1
    end.

(** [round(x)] with one argument: an [int], half to even; infinities raise
    [OverflowError] and NaN raises [ValueError]. *)
Definition round (x : PrimFloat.float) : res Z :=
  match FloatOps.Prim2SF x with
  | SpecFloat.S754_zero _ => Ok 0
  | SpecFloat.S754_infinity _ => Raise OverflowError
  | SpecFloat.S754_nan => Raise ValueError
  | SpecFloat.S754_finite s m e =>
      let n := half_even m e in Ok (if s then - n else n)
  end.

Definition hundred : PrimFloat.float := to_float 100.

End PyNum.

(** ** The data model

    [model.py] is known here through the uses [main.py] makes of it and
    through the specification.  An entity type lives in the [data] of the
    corpus file it was read from; the annotator holds a reference to it, so
    that assigning its [link] is seen by every later reader of [data]. *)

(** One mention: [entity.file_name] and its extent. *)
Record Entity : Type := {
  file_name : string;
  start : Z;
  stop : Z }.

(** The mentions sharing one surface text, with the link decided for them
    ([None] while undecided). *)
Record EntityType : Type := {
  text : string;
  entity_class : string;
  link : option string;
  entities : list Entity }.

Record CorpusFile : Type := {
  name : string;
  source : string;
  data : gmap string EntityType }.

(** A reference to an entity type: the name of its file and its text. *)
Definition EntRef : Type := string * string.

(** [files] is the dictionary from file names to corpus files in insertion
    order; [queue] and [cursor] are the traversal. *)
Record Corpus : Type := {
  annotations_folder : string;
  files : list CorpusFile;
  queue : list EntRef;
  cursor : nat }.

Record LinkAnnotation : Type := {
  identifier : Z;
  la_file_name : string;
  la_start : Z;
  la_end : Z;
  la_text : string;
  la_class : string;
  la_link : string }.

Definition with_link (l : option string) (e : EntityType) : EntityType :=
  {| text := text e; entity_class := entity_class e; link := l;
     entities := entities e |}.

Definition with_entities (m : list Entity) (e : EntityType) : EntityType :=
  {| text := text e; entity_class := entity_class e; link := link e;
     entities := m |}.

Definition with_data (d : gmap string EntityType) (f : CorpusFile) : CorpusFile :=
  {| name := name f; source := source f; data := d |}.

Definition with_files (fs : list CorpusFile) (c : Corpus) : Corpus :=
  {| annotations_folder := annotations_folder c; files := fs;
     queue := queue c; cursor := cursor c |}.

Definition with_cursor (n : nat) (c : Corpus) : Corpus :=
  {| annotations_folder := annotations_folder c; files := files c;
     queue := queue c; cursor := n |}.

(** [corpus.files.get(name)] *)
Definition files_get (c : Corpus) (n : string) : option CorpusFile :=
  List.find (fun f => String.eqb (name f) n) (files c).

(** [corpus.get_files()] *)
Definition get_files (c : Corpus) : list CorpusFile := files c.

(** The object a reference points to. *)
Definition deref (c : Corpus) (r : EntRef) : option EntityType :=
  match files_get c r.1 with
  | Some f => data f !! r.2
  | None => None
  end.

Fixpoint assign_in (fs : list CorpusFile) (r : EntRef) (l : option string)
  : list CorpusFile :=
  match fs with
  | [] => []
  | f :: rest =>
      if String.eqb (name f) r.1
      then with_data (alter (with_link l) r.2 (data f)) f :: rest
      else f :: assign_in rest r l
  end.

(** [entity_type.link = l] on the object [r] points to. *)
Definition assign_link (c : Corpus) (r : EntRef) (l : option string) : Corpus :=
  with_files (assign_in (files c) r l) c.

(** Modelled from the spec: [CorpusFile.entity_type_count], the number of
    distinct entity types of the file (model.py is not among the sources). *)
Definition entity_type_count (f : CorpusFile) : Z :=
  Z.of_nat (size (data f)).

(** Modelled from the spec: [CorpusFile.status], which reports the total of
    distinct entity types, the count already annotated and the percentage
    complete, 0 for a file without entity types (model.py is not among the
    sources). *)
Definition file_status (f : CorpusFile) : Z * Z * PrimFloat.float :=
  let total := Z.of_nat (size (data f)) in
  let done :=
    Z.of_nat (size (filter (fun kv : string * EntityType => is_Some (link kv.2))
                           (data f))) in
  let percent :=
    match PyNum.true_div done total with
    | Ok q => PrimFloat.mul q PyNum.hundred
    | Raise _ => PyNum.to_float 0
    end in
  (total, done, percent).

(** Modelled from the spec: [CorpusFile.get_context], the windows of at most
    [size] characters of the source before and after the extent of a mention
    (model.py is not among the sources; [size] is [config.CONTEXT_SIZE]). *)
Definition get_context (f : CorpusFile) (size : Z) (e : Entity) : string * string :=
  (PyStr.slice (source f) (start e - size) (start e),
   PyStr.slice (source f) (stop e) (stop e + size)).

(** Modelled from the spec: an entity type is present in the annotation
    store when a record carries its surface text. *)
Definition annotated (store : list LinkAnnotation) (r : EntRef) : bool :=
  existsb (fun a => String.eqb (la_text a) r.2) store.

(** Modelled from the spec: the scan of [Corpus.next] from the cursor, [pos]
    being the position of the head of [pending] in the queue. *)
Fixpoint next_from (store : list LinkAnnotation) (pending : list EntRef) (pos : nat)
  : option (EntRef * nat) :=
  match pending with
  | [] => None
  | r :: rest =>
      if annotated store r then next_from store rest (S pos)
      else Some (r, S pos)
  end.

(** Modelled from the spec: [Corpus.next], a single pass over the entity
    types in a fixed order that skips those present in the annotation store
    and never rewinds; [None] is the terminal signal (model.py is not among
    the sources). *)
Definition Corpus_next (store : list LinkAnnotation) (c : Corpus)
  : option EntRef * Corpus :=
  match next_from store (List.skipn (cursor c) (queue c)) (cursor c) with
  | Some (r, pos) => (Some r, with_cursor pos c)
  | None => (None, with_cursor (Nat.max (cursor c) (length (queue c))) c)
  end.



(** *** The annotation store (LinkAnnotations) *)

(** Modelled from the spec: the base URL of the link shorthand expansion. *)
Definition WIKIPEDIA : string := "https://en.wikipedia.org/wiki/".

(** Modelled from the spec: a value with a scheme is already a full URL, a
    bare title has none. *)
Definition has_scheme (s : string) : bool := PyStr.contains "://" s.

(** Modelled from the spec: [LinkAnnotations.normalize_link].  Empty or dash
    input gives the empty-link sentinel; a value that is already a full URL
    is passed through unchanged; a bare title has its spaces turned into
    underscores and is prefixed with the base URL of the encyclopedia
    (model.py is not among the sources). *)
Definition normalize_link (raw : string) : string :=
  if String.eqb raw "" || String.eqb raw "-" then ""
  else if has_scheme raw then raw
  else WIKIPEDIA +:+ PyStr.replace_char " " "_" raw.

(** Modelled from the spec: identifiers are assigned monotonically and are
    never reused; the next one is one more than the largest in the store. *)
Definition fresh_identifier (store : list LinkAnnotation) : Z :=
  1 + fold_right (fun a m => Z.max (identifier a) m) 0 store.

(** Modelled from the spec: [LinkAnnotations.add_link] appends one record
    for the decision, with the next unique identifier and the normalized
    link; the document and offsets are those of the first mention (model.py
    is not among the sources). *)
Definition add_link (store : list LinkAnnotation) (e : EntityType) (l : string)
  : list LinkAnnotation :=
  let m := List.hd {| file_name := ""; start := 0; stop := 0 |} (entities e) in
  store ++ [ {| identifier := fresh_identifier store;
                la_file_name := file_name m;
                la_start := start m;
                la_end := stop m;
                la_text := text e;
                la_class := entity_class e;
                la_link := normalize_link l |} ].

(** Modelled from the spec: [LinkAnnotations.get_annotation], the exact
    lookup by identifier, the latest record winning; absent identifiers fail
    with a not-found condition (model.py is not among the sources). *)
Definition get_annotation (store : list LinkAnnotation) (i : Z) : res LinkAnnotation :=
  match List.find (fun a => identifier a =? i) (rev store) with
  | Some a => Ok a
  | None => Raise KeyError
  end.

(** Modelled from the spec: [LinkAnnotations.create_link] copies the
    descriptive fields of the old record, with the new link and a fresh
    identifier; it does not save (model.py is not among the sources). *)
Definition create_link (store : list LinkAnnotation) (l : string) (old : LinkAnnotation)
  : LinkAnnotation :=
  {| identifier := fresh_identifier store;
     la_file_name := la_file_name old;
     la_start := la_start old;
     la_end := la_end old;
     la_text := la_text old;
     la_class := la_class old;
     la_link := l |}.

(** Modelled from the spec: [LinkAnnotations.save_annotation] appends one
    record (model.py is not among the sources). *)
Definition save_annotation (store : list LinkAnnotation) (a : LinkAnnotation)
  : list LinkAnnotation :=
  store ++ [a].

(** [annotations[-5:]] *)
Definition last_five (store : list LinkAnnotation) : list LinkAnnotation :=
  List.skipn (length store - 5) store.

(** ** The annotator and its ambient state

    Besides the attributes of [Annotator], the state holds what the methods
    reach through globals: [config.CONTEXT_SIZE], [config.DEBUG], the lines
    written to the standard output (one element per call of [print], the
    prompt of [input] included), the backups taken of the store and the
    URLs fetched with [requests.get]. *)

Record Annotator : Type := {
  corpus : Corpus;
  action : option string;
  next_entity : option EntRef;
  link_suggestion : option string;
  annotations : list LinkAnnotation;
  CONTEXT_SIZE : Z;
  DEBUG : bool;
  stdout : list string;
  backups : list (list LinkAnnotation);
  requested : list string }.

Definition set_corpus (c : Corpus) (s : Annotator) : Annotator :=
  {| corpus := c; action := action s; next_entity := next_entity s;
     link_suggestion := link_suggestion s; annotations := annotations s;
     CONTEXT_SIZE := CONTEXT_SIZE s; DEBUG := DEBUG s; stdout := stdout s;
     backups := backups s; requested := requested s |}.

Definition set_action (a : option string) (s : Annotator) : Annotator :=
  {| corpus := corpus s; action := a; next_entity := next_entity s;
     link_suggestion := link_suggestion s; annotations := annotations s;
     CONTEXT_SIZE := CONTEXT_SIZE s; DEBUG := DEBUG s; stdout := stdout s;
     backups := backups s; requested := requested s |}.

Definition set_next_entity (e : option EntRef) (s : Annotator) : Annotator :=
  {| corpus := corpus s; action := action s; next_entity := e;
     link_suggestion := link_suggestion s; annotations := annotations s;
     CONTEXT_SIZE := CONTEXT_SIZE s; DEBUG := DEBUG s; stdout := stdout s;
     backups := backups s; requested := requested s |}.

Definition set_link_suggestion (l : option string) (s : Annotator) : Annotator :=
  {| corpus := corpus s; action := action s; next_entity := next_entity s;
     link_suggestion := l; annotations := annotations s;
     CONTEXT_SIZE := CONTEXT_SIZE s; DEBUG := DEBUG s; stdout := stdout s;
     backups := backups s; requested := requested s |}.

Definition set_annotations (a : list LinkAnnotation) (s : Annotator) : Annotator :=
  {| corpus := corpus s; action := action s; next_entity := next_entity s;
     link_suggestion := link_suggestion s; annotations := a;
     CONTEXT_SIZE := CONTEXT_SIZE s; DEBUG := DEBUG s; stdout := stdout s;
     backups := backups s; requested := requested s |}.

Definition set_CONTEXT_SIZE (n : Z) (s : Annotator) : Annotator :=
  {| corpus := corpus s; action := action s; next_entity := next_entity s;
     link_suggestion := link_suggestion s; annotations := annotations s;
     CONTEXT_SIZE := n; DEBUG := DEBUG s; stdout := stdout s;
     backups := backups s; requested := requested s |}.

Definition set_stdout (o : list string) (s : Annotator) : Annotator :=
  {| corpus := corpus s; action := action s; next_entity := next_entity s;
     link_suggestion := link_suggestion s; annotations := annotations s;
     CONTEXT_SIZE := CONTEXT_SIZE s; DEBUG := DEBUG s; stdout := o;
     backups := backups s; requested := requested s |}.

Definition set_backups (b : list (list LinkAnnotation)) (s : Annotator) : Annotator :=
  {| corpus := corpus s; action := action s; next_entity := next_entity s;
     link_suggestion := link_suggestion s; annotations := annotations s;
     CONTEXT_SIZE := CONTEXT_SIZE s; DEBUG := DEBUG s; stdout := stdout s;
     backups := b; requested := requested s |}.

Definition set_requested (q : list string) (s : Annotator) : Annotator :=
  {| corpus := corpus s; action := action s; next_entity := next_entity s;
     link_suggestion := link_suggestion s; annotations := annotations s;
     CONTEXT_SIZE := CONTEXT_SIZE s; DEBUG := DEBUG s; stdout := stdout s;
     backups := backups s; requested := q |}.

(** A method: it runs from a state and ends in a state, with a value or
    with an exception raised. *)
Definition M (A : Type) : Type := Annotator -> res A * Annotator.

Definition ret {A} (a : A) : M A := fun s => (Ok a, s).

Definition bind {A B} (m : M A) (k : A -> M B) : M B :=
  fun s =>
    match m s with
    | (Ok a, s') => k a s'
    | (Raise e, s') => (Raise e, s')
    end.

Definition raise {A} (e : exn) : M A := fun s => (Raise e, s).

Definition lift {A} (r : res A) : M A := fun s => (r, s).

Definition get : M Annotator := fun s => (Ok s, s).

Definition modify (f : Annotator -> Annotator) : M unit := fun s => (Ok tt, f s).

Notation "'do' x <- m ; k" := (bind m (fun x => k))
  (at level 10, x pattern, m at level 100, k at level 200).
Notation "m ;; k" := (bind m (fun _ => k))
  (at level 100, k at level 200, right associativity).

(** [for x in l: body(x)] *)
Fixpoint for_each {A} (l : list A) (body : A -> M unit) : M unit :=
  match l with
  | [] => ret tt
  | x :: r => body x ;; for_each r body
  end.

Definition print (line : string) : M unit :=
  modify (fun s => set_stdout (stdout s ++ [line]) s).

Definition nl : string := String "010"%char "".

(** ** [collections.Counter] and [most_common] *)

(** [counter[x] += 1], a new key going last. *)
Fixpoint count_one (c : list (string * nat)) (x : string) : list (string * nat) :=
  match c with
  | [] => [(x, 1%nat)]
  | (k, n) :: r => if String.eqb k x then (k, S n) :: r else (k, n) :: count_one r x
  end.

(** [Counter(l)] *)
Definition Counter (l : list string) : list (string * nat) :=
  fold_left count_one l [].

(** [list(c)], the keys in their order of insertion *)
Definition keys (c : list (string * nat)) : list string := map fst c.

(** [c[k]], 0 for a missing key *)
Definition cnt (c : list (string * nat)) (k : string) : nat :=
  match List.find (fun p => String.eqb p.1 k) c with
  | Some p => p.2
  | None => 0%nat
  end.

(** One step of the stable sort by decreasing count: [p], which came before
    everything in [sorted], stays before the items of the same count. *)
Fixpoint insert_desc (p : string * nat) (sorted : list (string * nat))
  : list (string * nat) :=
  match sorted with
  | [] => [p]
  | q :: r => if (p.2 <? q.2)%nat then q :: insert_desc p r else p :: q :: r
  end.

(** [c.most_common()]: [sorted(c.items(), key=count, reverse=True)], which
    keeps items of equal count in their order of insertion. *)
Definition most_common (c : list (string * nat)) : list (string * nat) :=
  fold_right insert_desc [] c.

(** ** A small corpus *)

Module Demo.

Definition esc : string := String "027"%char "".
Definition BOLD : string := esc +:+ "[1m".
Definition END : string := esc +:+ "[0m".
Definition RED : string := esc +:+ "[31m".
Definition BLUE : string := esc +:+ "[34m".
Definition PROMPT : string := ">>>".

Definition jim_url : string := "https://en.wikipedia.org/wiki/Jim_Lehrer".
Definition james_url : string := "https://en.wikipedia.org/wiki/James_Lehrer".

(** The encyclopedia as this corpus needs it: two pages exist. *)
Definition web (url : string) : res Z :=
  if String.eqb url jim_url || String.eqb url james_url then Ok 200 else Ok 404.

Definition help : res string := Ok "h - print this help".

Definition line_of (a : LinkAnnotation) : string :=
  pretty (identifier a) +:+ " " +:+ la_text a +:+ " " +:+ la_link a.

Definition entity_str (e : EntityType) : string := "<EntityType " +:+ text e +:+ ">".

Definition jim : EntityType :=
  {| text := "Jim Lehrer"; entity_class := "person"; link := None;
     entities := [ {| file_name := "d1.ann"; start := 19; stop := 29 |} ] |}.

Definition acme : EntityType :=
  {| text := "Acme Corp"; entity_class := "organization"; link := None;
     entities := [ {| file_name := "d1.ann"; start := 31; stop := 40 |} ] |}.

Definition d1 : CorpusFile :=
  {| name := "d1.ann";
     source := "Good evening. I am Jim Lehrer. Acme Corp fell today.";
     data := <["Acme Corp" := acme]> (<["Jim Lehrer" := jim]> ∅) |}.

Definition acme_ref : EntRef := ("d1.ann", "Acme Corp").
Definition jim_ref : EntRef := ("d1.ann", "Jim Lehrer").

Definition the_corpus : Corpus :=
  {| annotations_folder := "annotations"; files := [d1];
     queue := [acme_ref; jim_ref]; cursor := 1 |}.

(** Acme Corp is the current entity; nothing is annotated yet. *)
Definition s0 : Annotator :=
  {| corpus := the_corpus; action := None; next_entity := Some acme_ref;
     link_suggestion := None; annotations := []; CONTEXT_SIZE := 50;
     DEBUG := false; stdout := []; backups := []; requested := [] |}.


(** A corpus file that holds one decision for Jim Lehrer. *)
Definition decided (n : string) (l : option string) : CorpusFile :=
  {| name := n; source := "";
     data := <["Jim Lehrer" := with_link l jim]> ∅ |}.

(** Three files have seen Jim Lehrer: one link, then twice another. *)
Definition voted : Corpus :=
  {| annotations_folder := "annotations";
     files := [decided "a.ann" (Some james_url); decided "b.ann" (Some jim_url);
               decided "c.ann" None; decided "d.ann" (Some jim_url)];
     queue := []; cursor := 0 |}.

(** Two links once each: the first one met wins. *)
Definition tied : Corpus :=
  {| annotations_folder := "annotations";
     files := [decided "a.ann" (Some james_url); decided "b.ann" (Some jim_url)];
     queue := []; cursor := 0 |}.

(** A corpus whose only file has no entity type. *)
Definition hollow : Annotator :=
  {| corpus := {| annotations_folder := "annotations";
                  files := [ {| name := "e.ann"; source := ""; data := ∅ |} ];
                  queue := []; cursor := 0 |};
     action := None; next_entity := None; link_suggestion := None;
     annotations := []; CONTEXT_SIZE := 50; DEBUG := false; stdout := [];
     backups := []; requested := [] |}.

(** Every entity type of the corpus has its link. *)
Definition complete : Annotator :=
  {| corpus := {| annotations_folder := "annotations";
                  files := [decided "a.ann" (Some jim_url); decided "b.ann" (Some "")];
                  queue := []; cursor := 0 |};
     action := None; next_entity := None; link_suggestion := None;
     annotations := []; CONTEXT_SIZE := 50; DEBUG := false; stdout := [];
     backups := []; requested := [] |}.

End Demo.

(** ** [main.py] *)

Definition dq : string := String "034"%char "".

Module Warnings.

Definition NO_ENTITY : string :=
  "no entity was selected, type " +:+ dq +:+ "n" +:+ dq +:+ " to select next entity".

Definition UNKNOWN_COMMAND : string :=
  "unknown command, type " +:+ dq +:+ "h" +:+ dq +:+ " to see available commands".

Definition NO_LINK_SUGGESTION : string := "there was no link suggestion".

(** [NOT_IN_WIKIPEDIA % link] *)
Definition NOT_IN_WIKIPEDIA (l : string) : string :=
  "'" +:+ l +:+ "' is not an entry in Wikipedia".

End Warnings.

(** [str(x)] for an attribute that may be [None] *)
Definition str_opt (o : option string) : string :=
  match o with Some s => s | None => "None" end.

(** The link a file holds for a surface text: [None] when the text is not
    in [data] or its entity type has no link yet. *)
Definition decision (entity_text : string) (f : CorpusFile) : option string :=
  match data f !! entity_text with
  | Some suggestion => link suggestion
  | None => None
  end.

(** What one file adds to the suggestions. *)
Definition vote (entity_text : string) (f : CorpusFile) : list string :=
  match decision entity_text f with
  | Some l => [l]
  | None => []
  end.

(** The file holds the link [l] for the surface text. *)
Definition holds (entity_text l : string) (f : CorpusFile) : bool :=
  match decision entity_text f with
  | Some l' => String.eqb l' l
  | None => false
  end.

(** The number of files of the corpus that hold [l] for the surface text. *)
Definition files_holding (c : Corpus) (entity_text l : string) : nat :=
  length (List.filter (holds entity_text l) (get_files c)).

(** The only decision stored for a surface text is the empty-link sentinel:
    some file holds it, and no file holds another link. *)
Definition only_sentinel (c : Corpus) (entity_text : string) : bool :=
  existsb (fun f => match decision entity_text f with
                    | Some l => String.eqb l ""
                    | None => false
                    end) (get_files c)
  && forallb (fun f => match decision entity_text f with
                       | Some l => String.eqb l ""
                       | None => true
                       end) (get_files c).

(** The corpus with the mentions of every entity type replaced. *)
Definition remention (g : EntityType -> list Entity) (c : Corpus) : Corpus :=
  with_files
    (map (fun f => with_data ((fun e => with_entities (g e) e) <$> data f) f) (files c)) c.

(** The scan of [suggest_link]: the links that are not [None], one file
    after the other. *)
Fixpoint collect (fs : list CorpusFile) (entity_text : string) (suggestions : list string)
  : list string :=
  match fs with
  | [] => suggestions
  | corpus_file :: rest =>
      collect rest entity_text
        match data corpus_file !! entity_text with
        | Some suggestion =>
            match link suggestion with
            | Some l => suggestions ++ [l]
            | None => suggestions
            end
        | None => suggestions
        end
  end.

(** [Annotator.suggest_link]; the [IndexError] of an empty counter is
    caught there and gives [None]. *)
Definition suggest_link (c : Corpus) (entity_text : string) : option string :=
  match most_common (Counter (collect (get_files c) entity_text [])) with
  | (l, _) :: _ => Some l
  | [] => None
  end.

Section Tool.

(** What [main.py] takes from [utils], [config], the network, the file
    system and the printing methods of [model.py]. *)
Variables ANSI_BOLD ANSI_END ANSI_RED ANSI_BLUE PROMPT : string.
Variable requests_get : string -> res Z.
Variable help_txt : res string.
Variable as_pretty_line : LinkAnnotation -> string.
Variable annotation_str : LinkAnnotation -> string.
Variable entity_type_str : EntityType -> string.

Set Default Proof Using "Type".

(** [Annotator.print_warning] *)
Definition warning_line (message : string) : string :=
  nl +:+ ANSI_RED +:+ "WARNING: " +:+ message +:+ ANSI_END.

Definition print_warning (message : string) : M unit :=
  print (warning_line message).

(** [Annotator.print_help] *)
Definition print_help : M unit :=
  do h <- lift help_txt;
  print (nl +:+ PyStr.strip h).

(** [Annotator.validate_link]: the empty link is fine without asking, any
    other link is fetched. *)
Definition validate_link (l : string) : M bool :=
  if String.eqb l "" then ret true
  else
    modify (fun s => set_requested (requested s ++ [l]) s) ;;
    do code <- lift (requests_get l);
    ret (code =? 200).

(** [Annotator.debug_loop] *)
Definition debug_loop (message : string) : M unit :=
  do s <- get;
  if DEBUG s then
    print (nl +:+ message) ;;
    print ("    self.action           =  " +:+ str_opt (action s)) ;;
    print ("    self.link_suggestion  =  " +:+ str_opt (link_suggestion s)) ;;
    print ("    self.next_entity      =  " +:+
           match next_entity s with
           | None => "None"
           | Some r =>
               match deref (corpus s) r with
               | Some e => entity_type_str e
               | None => "None"
               end
           end)
  else ret tt.

(** The line of one file in [status], and the running totals. *)
Fixpoint status_files (fs : list CorpusFile) (corpus_types corpus_types_done : Z)
  : M (Z * Z) :=
  match fs with
  | [] => ret (corpus_types, corpus_types_done)
  | corpus_file :: rest =>
      let '(total_types, types_done, percent_done_types) := file_status corpus_file in
      do p <- lift (PyNum.round percent_done_types);
      print ("    " +:+ name corpus_file +:+ "  " +:+
             PyStr.fmt_d 4 (entity_type_count corpus_file) +:+ " " +:+
             PyStr.fmt_d 3 p +:+ "%") ;;
      status_files rest (corpus_types + total_types) (corpus_types_done + types_done)
  end.

(** [Annotator.status] *)
Definition status : M unit :=
  do s <- get;
  print (nl +:+ "Status on " +:+ annotations_folder (corpus s) +:+ nl) ;;
  do totals <- status_files (get_files (corpus s)) 0 0;
  let '(corpus_types, corpus_types_done) := totals in
  do q <- lift (PyNum.true_div corpus_types_done corpus_types);
  do corpus_percentage_done <- lift (PyNum.round (PrimFloat.mul q PyNum.hundred));
  print ("    " +:+ PyStr.fmt_s_left 39 "" +:+ "  " +:+
         PyStr.fmt_d 4 corpus_types +:+ " " +:+
         PyStr.fmt_d 3 corpus_percentage_done +:+ "%").

(** [Annotator.action_backup]; [LinkAnnotations.backup] is modelled from
    the spec, as a copy of the store set aside. *)
Definition action_backup : M unit :=
  modify (fun s => set_backups (backups s ++ [annotations s]) s).

(** The line printed for one mention in [action_print_next]. *)
Definition context_line (s : Annotator) (txt : string) (entity : Entity) : M unit :=
  match files_get (corpus s) (file_name entity) with
  | None => raise AttributeError
  | Some corpus_file =>
      let '(lft, rgt) := get_context corpus_file (CONTEXT_SIZE s) entity in
      let lft := PyStr.spaces (CONTEXT_SIZE s - PyStr.len lft) +:+ lft in
      print ("    " +:+ lft +:+ "[" +:+ ANSI_BLUE +:+ txt +:+ ANSI_END +:+ "]" +:+ rgt)
  end.

(** The end of [action_print_next]: [if self.link_suggestion: print(...)],
    where [None] and the empty string are both false. *)
Definition print_suggestion (suggestion : option string) : M unit :=
  match suggestion with
  | Some l =>
      if String.eqb l "" then ret tt
      else print (nl +:+ "Link suggestion: " +:+ l)
  | None => ret tt
  end.

(** The first line [action_print_next] prints for an entity type: its text
    and its class. *)
Definition entity_heading (e : EntityType) : string :=
  nl +:+ ANSI_BOLD +:+ "[" +:+ text e +:+ "] (" +:+ entity_class e +:+ ")" +:+
  ANSI_END +:+ nl.

(** The body of [action_print_next] once [self.next_entity] is assigned.
    The terminal signal of [Corpus.next] is not looked for: asking it for its
    text raises [AttributeError]. *)
Definition print_entity (c : Corpus) (r : option EntRef) : M unit :=
  match r with
  | None => raise AttributeError
  | Some r =>
      match deref c r with
      | None => raise AttributeError
      | Some e =>
          let txt := text e in
          print (nl +:+ ANSI_BOLD +:+ "[" +:+ txt +:+ "] (" +:+ entity_class e +:+ ")" +:+
                 ANSI_END +:+ nl) ;;
          do s <- get;
          for_each (entities e) (context_line s txt) ;;
          let suggestion := suggest_link c txt in
          modify (set_link_suggestion suggestion) ;;
          print_suggestion suggestion
      end
  end.

(** [Annotator.action_print_next] *)
Definition action_print_next : M unit :=
  do s <- get;
  let '(r, c) := Corpus_next (annotations s) (corpus s) in
  modify (fun s => set_next_entity r (set_corpus c s)) ;;
  print_entity c r.

(** [self.next_entity.link = l] followed by [self.annotations.add_link]. *)
Definition annotate (r : EntRef) (l : string) : M unit :=
  modify (fun s => set_corpus (assign_link (corpus s) r (Some l)) s) ;;
  do s <- get;
  match deref (corpus s) r with
  | None => raise AttributeError
  | Some e => modify (set_annotations (add_link (annotations s) e l))
  end.

(** [Annotator.action_accept_hint] *)
Definition action_accept_hint : M unit :=
  do s <- get;
  match next_entity s with
  | None => print_warning Warnings.NO_ENTITY
  | Some r =>
      match link_suggestion s with
      | None =>
          print_warning Warnings.NO_LINK_SUGGESTION ;;
          action_print_next
      | Some l =>
          annotate r l ;;
          action_print_next
      end
  end.

(** [Annotator.action_store_link] *)
Definition action_store_link (l : string) : M unit :=
  let l := normalize_link l in
  do s <- get;
  match next_entity s with
  | Some r =>
      do valid <- validate_link l;
      (if valid : bool then annotate r l
       else print_warning (Warnings.NOT_IN_WIKIPEDIA l)) ;;
      action_print_next ;;
      do s <- get;
      if DEBUG s then
        for_each (last_five (annotations s)) (fun a => print (annotation_str a))
      else ret tt
  | None => print_warning Warnings.NO_ENTITY
  end.

(** [Annotator.action_fix_link]; building the new annotation again from its
    tab-separated line gives the same record. *)
Definition action_fix_link (identifier_and_link : string) : M unit :=
  match PyStr.split_once " "%char identifier_and_link with
  | (_, None) => raise ValueError
  | (ident, Some l) =>
      match PyStr.int ident with
      | None => raise ValueError
      | Some ident =>
          let l := normalize_link l in
          do valid <- validate_link l;
          if valid : bool then
            do s <- get;
            do old_annotation <- lift (get_annotation (annotations s) ident);
            let new_annotation := create_link (annotations s) l old_annotation in
            modify (set_annotations (save_annotation (annotations s) new_annotation))
          else print_warning (Warnings.NOT_IN_WIKIPEDIA l)
      end
  end.

(** [Annotator.action_print_annotations] *)
Definition action_print_annotations (search_term : option string) : M unit :=
  do s <- get;
  match search_term with
  | None =>
      print (nl +:+ "Current annotations:" +:+ nl) ;;
      for_each (annotations s) (fun annotation => print (as_pretty_line annotation))
  | Some term =>
      print (nl +:+ "Annotations matching '" +:+ term +:+ "':" +:+ nl) ;;
      for_each (annotations s) (fun annotation =>
        if PyStr.contains (PyStr.lower term) (PyStr.lower (la_text annotation))
        then print (as_pretty_line annotation)
        else ret tt)
  end.

(** [Annotator.action_set_context] *)
Definition action_set_context (context_size : string) : M unit :=
  match PyStr.int context_size with
  | Some n => modify (set_CONTEXT_SIZE n)
  | None =>
      print (nl +:+ "WARNING: context size has to be an integer, ignoring command")
  end.

Definition is_in (a : string) (l : list string) : bool :=
  existsb (String.eqb a) l.

(** The chain of tests in the body of [loop] after its first test: what is
    done with an action that is not [q], [quit] or [exit].  Those three are
    tested for before, by [leaves] in [iterate], and never come here. *)
Definition dispatch (act : option string) : M unit :=
  match act with
  | None => status
  | Some a =>
      if is_in a ["?"; "h"; "help"] then print_help
      else if is_in a ["s"; "status"] then status
      else if is_in a ["b"; "backup"] then action_backup
      else if is_in a [""; "n"] then action_print_next
      else if String.eqb a "a" then action_print_annotations None
      else if String.eqb a "y" then action_accept_hint
      else if PyStr.startswith "f " a then action_fix_link (PyStr.drop 2 a)
      else if PyStr.startswith "a " a then action_print_annotations (Some (PyStr.drop 2 a))
      else if PyStr.startswith "c " a then action_set_context (PyStr.drop 2 a)
      else if String.eqb a "l" || PyStr.startswith "l " a then
        action_store_link (if String.eqb a "l" then "-" else PyStr.strip (PyStr.drop 2 a))
      else print_warning Warnings.UNKNOWN_COMMAND
  end.

Definition leaves (act : option string) : bool :=
  match act with
  | Some a => is_in a ["q"; "quit"; "exit"]
  | None => false
  end.

(** The [while True] of [loop], on the lines that [input] will read; at the
    end of the input [input] raises [EOFError]. *)
Fixpoint iterate (lines : list string) : M unit :=
  debug_loop "START OF LOOP:" ;;
  do s <- get;
  if leaves (action s) then ret tt
  else
    dispatch (action s) ;;
    debug_loop "END OF LOOP, BEFORE PROMPT:" ;;
    print (nl +:+ PROMPT +:+ " ") ;;
    match lines with
    | [] => raise EOFError
    | line :: rest =>
        modify (set_action (Some (PyStr.strip line))) ;;
        iterate rest
    end.

(** [Annotator.loop] *)
Definition loop (lines : list string) : M unit :=
  modify (set_action None) ;;
  modify (set_link_suggestion None) ;;
  iterate lines.


(** ** What a method leaves alone *)

(** [s'] differs from [s] by its suggestion and by lines added to the
    output, at most. *)
Definition keeps (s s' : Annotator) : Prop :=
  corpus s' = corpus s /\ next_entity s' = next_entity s
  /\ annotations s' = annotations s /\ CONTEXT_SIZE s' = CONTEXT_SIZE s
  /\ DEBUG s' = DEBUG s /\ backups s' = backups s
  /\ requested s' = requested s
  /\ exists out, stdout s' = stdout s ++ out.

Definition quiet {A} (m : M A) : Prop := forall s, keeps s (m s).2.

(** * Properties *)

(** ** The counter and the first item of [most_common] *)

Section CounterFacts.

Implicit Types (c : list (string * nat)) (l : list string) (x k : string).

Lemma cnt_count_one c x k :
  cnt (count_one c x) k = if String.eqb k x then S (cnt c k) else cnt c k.
Proof.
  unfold cnt. induction c as [|[k' n] r IH]; simpl.
  - rewrite String.eqb_sym. destruct (String.eqb k x); reflexivity.
  - destruct (String.eqb k' x) eqn:Hx; simpl.
    + apply String.eqb_eq in Hx. subst k'.
      rewrite (String.eqb_sym k x).
      destruct (String.eqb x k); reflexivity.
    + destruct (String.eqb k' k) eqn:Hk; [|exact IH].
      apply String.eqb_eq in Hk. subst k'. rewrite Hx. reflexivity.
Qed.

Lemma cnt_fold l : forall c k,
  cnt (fold_left count_one l c) k = (cnt c k + count_occ string_dec l k)%nat.
Proof.
  induction l as [|x l IH]; intros c k; simpl.
  - lia.
  - rewrite IH, cnt_count_one.
    destruct (string_dec x k) as [->|Hne].
    + rewrite String.eqb_refl. lia.
    + destruct (String.eqb k x) eqn:E; [|lia].
      apply String.eqb_eq in E. congruence.
Qed.

Lemma cnt_Counter l k : cnt (Counter l) k = count_occ string_dec l k.
Proof. unfold Counter. rewrite cnt_fold. reflexivity. Qed.

Lemma keys_count_one_in c x :
  In x (keys c) -> keys (count_one c x) = keys c.
Proof.
  induction c as [|[k n] r IH]; simpl; [intros []|].
  intros H. destruct (String.eqb k x) eqn:E; simpl; [reflexivity|].
  destruct H as [H|H].
  - subst k. rewrite String.eqb_refl in E. discriminate.
  - f_equal. auto.
Qed.

Lemma keys_count_one_new c x :
  ~ In x (keys c) -> keys (count_one c x) = keys c ++ [x].
Proof.
  induction c as [|[k n] r IH]; simpl; [reflexivity|].
  intros H. destruct (String.eqb k x) eqn:E.
  - apply String.eqb_eq in E. exfalso. apply H. left. exact E.
  - simpl. f_equal. apply IH. intros Hin. apply H. right. exact Hin.
Qed.

Lemma keys_count_one c x :
  keys (count_one c x) = keys c \/ (~ In x (keys c) /\ keys (count_one c x) = keys c ++ [x]).
Proof.
  destruct (in_dec string_dec x (keys c)) as [H|H].
  - left. apply keys_count_one_in, H.
  - right. split; [exact H|]. apply keys_count_one_new, H.
Qed.

Lemma NoDup_count_one c x : NoDup (keys c) -> NoDup (keys (count_one c x)).
Proof.
  intros H. destruct (keys_count_one c x) as [->|[Hn ->]]; [exact H|].
  apply NoDup_app. split; [exact H|]. split.
  - intros y Hy Hy'. apply list_elem_of_In in Hy, Hy'.
    destruct Hy' as [<-|[]]. exact (Hn Hy).
  - apply NoDup_singleton.
Qed.

Lemma positive_count_one c x :
  Forall (fun p => (1 <= p.2)%nat) c -> Forall (fun p => (1 <= p.2)%nat) (count_one c x).
Proof.
  induction 1 as [|[k n] r Hk Hr IH]; simpl.
  - repeat constructor.
  - destruct (String.eqb k x); constructor; simpl in *; auto; lia.
Qed.

(** The counter after a run of increments, whatever it started from. *)
Lemma fold_count_one_inv (P : list (string * nat) -> Prop) :
  (forall c x, P c -> P (count_one c x)) ->
  forall l c, P c -> P (fold_left count_one l c).
Proof.
  intros Hstep l. induction l as [|x l IH]; intros c Hc; simpl; auto.
Qed.

Lemma NoDup_Counter l : NoDup (keys (Counter l)).
Proof.
  apply (fold_count_one_inv (fun c => NoDup (keys c))).
  - intros c x. apply NoDup_count_one.
  - constructor.
Qed.

Lemma positive_Counter l : Forall (fun p => (1 <= p.2)%nat) (Counter l).
Proof.
  apply (fold_count_one_inv (Forall (fun p => (1 <= p.2)%nat))).
  - intros c x. apply positive_count_one.
  - constructor.
Qed.

Lemma cnt_of_entry c k n : NoDup (keys c) -> In (k, n) c -> cnt c k = n.
Proof.
  unfold cnt. induction c as [|[k' n'] r IH]; simpl; [intros _ []|].
  intros Hnd [H|H].
  - inversion H; subst. rewrite String.eqb_refl. reflexivity.
  - destruct (String.eqb k' k) eqn:E.
    + apply String.eqb_eq in E. subst k'.
      apply NoDup_cons in Hnd. destruct Hnd as [Hnot _].
      exfalso. apply Hnot. apply list_elem_of_In.
      change k with (fst (k, n)). apply in_map, H.
    + apply IH; [|exact H]. apply NoDup_cons in Hnd. exact (proj2 Hnd).
Qed.

Lemma cnt_pos_key c k : (1 <= cnt c k)%nat -> In k (keys c).
Proof.
  unfold cnt. induction c as [|[k' n'] r IH]; simpl; [lia|].
  destruct (String.eqb k' k) eqn:E.
  - apply String.eqb_eq in E. auto.
  - auto.
Qed.

(** An entry of the counter carries the number of occurrences of its key. *)
Lemma Counter_entry l k n :
  In (k, n) (Counter l) -> n = count_occ string_dec l k /\ In k l.
Proof.
  intros H.
  assert (Hn : cnt (Counter l) k = n) by (apply cnt_of_entry; [apply NoDup_Counter|exact H]).
  rewrite cnt_Counter in Hn. split; [congruence|].
  pose proof (positive_Counter l) as Hp.
  rewrite Forall_forall in Hp. specialize (Hp _ (proj2 (list_elem_of_In _ _) H)). simpl in Hp.
  apply (count_occ_In string_dec). lia.
Qed.

Lemma Counter_key l k : In k l -> In k (keys (Counter l)).
Proof.
  intros H. apply cnt_pos_key. rewrite cnt_Counter.
  apply (count_occ_In string_dec) in H. lia.
Qed.

Lemma Counter_snoc l x : Counter (l ++ [x]) = count_one (Counter l) x.
Proof. unfold Counter. rewrite fold_left_app. reflexivity. Qed.

(** The keys come in the order of their first occurrence: what is seen
    before the first [k] has its key before [k]. *)
Lemma Counter_order l : forall (before : list string) k (after : list string),
  keys (Counter l) = before ++ k :: after ->
  exists l1 l2, l = l1 ++ k :: l2 /\ forall y, In y l1 -> In y before.
Proof.
  induction l as [|x l IH] using rev_ind; intros k1 k k2 H.
  - destruct k1; discriminate.
  - rewrite Counter_snoc in H.
    destruct (keys_count_one (Counter l) x) as [E|[Hn E]]; rewrite E in H.
    + destruct (IH _ _ _ H) as (l1 & l2 & -> & Hl1).
      exists l1, (l2 ++ [x]). split; [|exact Hl1].
      rewrite <- app_assoc. reflexivity.
    + induction k2 as [|z k2' _] using rev_ind.
      * apply app_inj_tail in H. destruct H as [<- <-].
        exists l, []. split; [reflexivity|].
        intros y Hy. apply Counter_key, Hy.
      * change (k1 ++ k :: k2' ++ [z]) with (k1 ++ (k :: k2') ++ [z]) in H.
        rewrite app_assoc in H. apply app_inj_tail in H. destruct H as [H <-].
        destruct (IH _ _ _ H) as (l1 & l2 & -> & Hl1).
        exists l1, (l2 ++ [x]). split; [|exact Hl1].
        rewrite <- app_assoc. reflexivity.
Qed.

Lemma insert_desc_not_nil p s : insert_desc p s <> [].
Proof. destruct s; simpl; [discriminate|]. destruct (_ <? _)%nat; discriminate. Qed.

Lemma most_common_nil c : most_common c = [] -> c = [].
Proof.
  destruct c as [|a c]; [reflexivity|]. simpl. intros H.
  exfalso. exact (insert_desc_not_nil _ _ H).
Qed.

(** The first item of [most_common] is the first item of largest count. *)
Lemma most_common_head c : forall p rest,
  most_common c = p :: rest ->
  exists c1 c2, c = c1 ++ p :: c2
    /\ (forall q, In q c1 -> (q.2 < p.2)%nat)
    /\ (forall q, In q c2 -> (q.2 <= p.2)%nat).
Proof.
  induction c as [|a c IH]; intros p rest H; [discriminate|].
  simpl in H. destruct (most_common c) as [|q r] eqn:E.
  - apply most_common_nil in E. subst c. simpl in H. inversion H; subst.
    exists [], []. repeat split; simpl; intros ? [].
  - destruct (IH _ _ eq_refl) as (d1 & d2 & -> & H1 & H2).
    simpl in H. destruct (a.2 <? q.2)%nat eqn:Hlt.
    + inversion H; subst. apply Nat.ltb_lt in Hlt.
      exists (a :: d1), d2. repeat split; [|exact H2].
      intros x [<-|Hx]; auto.
    + inversion H; subst. apply Nat.ltb_ge in Hlt.
      exists [], (d1 ++ q :: d2). repeat split; [simpl; intros ? []|].
      intros x Hx. apply in_app_or in Hx. destruct Hx as [Hx|[<-|Hx]].
      * specialize (H1 _ Hx). lia.
      * exact Hlt.
      * specialize (H2 _ Hx). lia.
Qed.

End CounterFacts.

(** ** Link suggestion *)

Lemma collect_votes fs entity_text : forall acc,
  collect fs entity_text acc = acc ++ flat_map (vote entity_text) fs.
Proof.
  induction fs as [|f fs IH]; intros acc; simpl.
  - rewrite app_nil_r. reflexivity.
  - rewrite IH. unfold vote, decision.
    destruct (data f !! entity_text) as [e|]; [destruct (link e)|];
      simpl; rewrite <- ?app_assoc; reflexivity.
Qed.

Lemma vote_length entity_text f : (length (vote entity_text f) <= 1)%nat.
Proof. unfold vote. destruct (decision entity_text f); simpl; lia. Qed.

Lemma flat_map_vote_length entity_text fs :
  (length (flat_map (vote entity_text) fs) <= length fs)%nat.
Proof.
  induction fs as [|f fs IH]; simpl; [lia|].
  rewrite length_app. pose proof (vote_length entity_text f). lia.
Qed.

Lemma in_votes fs entity_text l :
  In l (flat_map (vote entity_text) fs) <->
  exists f e, In f fs /\ data f !! entity_text = Some e /\ link e = Some l.
Proof.
  rewrite in_flat_map. split.
  - intros (f & Hf & Hl). unfold vote, decision in Hl.
    destruct (data f !! entity_text) as [e|] eqn:E; [|destruct Hl].
    destruct (link e) as [l'|] eqn:El; [|destruct Hl].
    destruct Hl as [<-|[]]. eauto.
  - intros (f & e & Hf & E & El). exists f. split; [exact Hf|].
    unfold vote, decision. rewrite E, El. left. reflexivity.
Qed.

Lemma Counter_nil_inv l : Counter l = [] -> l = [].
Proof.
  destruct l as [|x l]; [reflexivity|]. intros H.
  assert (Hin : In x (keys (Counter (x :: l)))) by (apply Counter_key; left; reflexivity).
  rewrite H in Hin. destruct Hin.
Qed.

(** What [suggest_link] returns, on the list of collected links. *)
Lemma first_most_common l x :
  (match most_common (Counter l) with (y, _) :: _ => Some y | [] => None end) = Some x ->
  (forall y, (count_occ string_dec l y <= count_occ string_dec l x)%nat)
  /\ exists before after, l = before ++ x :: after
       /\ forall y, In y before -> (count_occ string_dec l y < count_occ string_dec l x)%nat.
Proof.
  destruct (most_common (Counter l)) as [|[y n] rest] eqn:E; [discriminate|].
  intros H. inversion H; subst y. clear H.
  destruct (most_common_head _ _ _ E) as (c1 & c2 & Hc & H1 & H2).
  assert (Hx : In (x, n) (Counter l)) by (rewrite Hc; apply in_elt).
  destruct (Counter_entry _ _ _ Hx) as [Hn _].
  split.
  - intros y. destruct (in_dec string_dec y l) as [Hy|Hy].
    + apply Counter_key in Hy. unfold keys in Hy. apply in_map_iff in Hy.
      destruct Hy as ([y' m] & Hfst & Hy). simpl in Hfst. subst y'.
      destruct (Counter_entry _ _ _ Hy) as [Hm _].
      rewrite Hc in Hy. apply in_app_or in Hy. destruct Hy as [Hy|[Hy|Hy]].
      * specialize (H1 _ Hy). simpl in H1. lia.
      * inversion Hy; subst. lia.
      * specialize (H2 _ Hy). simpl in H2. lia.
    + apply (count_occ_not_In string_dec) in Hy. lia.
  - assert (Hk : keys (Counter l) = keys c1 ++ x :: keys c2).
    { rewrite Hc. unfold keys. rewrite map_app. reflexivity. }
    destruct (Counter_order _ _ _ _ Hk) as (l1 & l2 & Hl & Hb).
    exists l1, l2. split; [exact Hl|].
    intros y Hy. specialize (Hb _ Hy). unfold keys in Hb. apply in_map_iff in Hb.
    destruct Hb as ([y' m] & Hfst & Hin). simpl in Hfst. subst y'.
    specialize (H1 _ Hin). simpl in H1.
    assert (Hin' : In (y, m) (Counter l)) by (rewrite Hc; apply in_or_app; left; exact Hin).
    destruct (Counter_entry _ _ _ Hin') as [Hm _]. lia.
Qed.

Lemma suggest_link_none c entity_text :
  collect (get_files c) entity_text [] = [] -> suggest_link c entity_text = None.
Proof. unfold suggest_link. intros ->. reflexivity. Qed.

Lemma suggest_link_some c entity_text :
  collect (get_files c) entity_text [] <> [] ->
  exists l, suggest_link c entity_text = Some l /\ In l (collect (get_files c) entity_text []).
Proof.
  unfold suggest_link. intros Hne.
  destruct (most_common (Counter (collect (get_files c) entity_text []))) as [|[y n] rest] eqn:E.
  - apply most_common_nil, Counter_nil_inv in E. contradiction.
  - exists y. split; [reflexivity|].
    destruct (most_common_head _ _ _ E) as (c1 & c2 & Hc & _).
    assert (Hx : In (y, n) (Counter (collect (get_files c) entity_text [])))
      by (rewrite Hc; apply in_elt).
    apply Counter_entry in Hx. exact (proj2 Hx).
Qed.

(** ** Traversal *)

Lemma next_from_found store : forall pending pos r p,
  next_from store pending pos = Some (r, p) ->
  exists i, p = S (pos + i) /\ nth_error pending i = Some r /\ annotated store r = false.
Proof.
  induction pending as [|q rest IH]; intros pos r p H; simpl in H; [discriminate|].
  destruct (annotated store q) eqn:E.
  - destruct (IH _ _ _ H) as (i & -> & Hi & Ha).
    exists (S i). repeat split; [lia|exact Hi|exact Ha].
  - inversion H; subst. exists 0%nat. repeat split; [lia|exact E].
Qed.

(** [Corpus.next] moves the cursor forward only, and past the entity type
    it returns. *)
Lemma Corpus_next_cursor store c :
  files (Corpus_next store c).2 = files c
  /\ queue (Corpus_next store c).2 = queue c
  /\ (cursor c <= cursor (Corpus_next store c).2)%nat
  /\ forall r, (Corpus_next store c).1 = Some r ->
       (cursor c < cursor (Corpus_next store c).2)%nat
       /\ nth_error (queue c) (cursor (Corpus_next store c).2 - 1) = Some r
       /\ annotated store r = false.
Proof.
  unfold Corpus_next.
  destruct (next_from store (skipn (cursor c) (queue c)) (cursor c)) as [[r p]|] eqn:E; simpl.
  - destruct (next_from_found _ _ _ _ _ E) as (i & -> & Hi & Ha).
    split; [reflexivity|]. split; [reflexivity|]. split; [lia|].
    intros r0 H. inversion H; subst. split; [lia|]. split; [|exact Ha].
    rewrite nth_error_skipn in Hi.
    replace (S (cursor c + i) - 1)%nat with (cursor c + i)%nat by lia. exact Hi.
  - split; [reflexivity|]. split; [reflexivity|]. split; [lia|].
    intros r H. discriminate.
Qed.

Lemma deref_assign_in fs r l :
  match List.find (fun f => String.eqb (name f) r.1) (assign_in fs r l) with
  | Some f => data f !! r.2
  | None => None
  end
  = with_link l <$>
    match List.find (fun f => String.eqb (name f) r.1) fs with
    | Some f => data f !! r.2
    | None => None
    end.
Proof.
  induction fs as [|f fs IH]; simpl; [reflexivity|].
  destruct (String.eqb (name f) r.1) eqn:E; simpl; rewrite E.
  - unfold with_data. simpl. rewrite lookup_alter_eq. reflexivity.
  - exact IH.
Qed.

(** Reading back the object whose link was assigned. *)
Lemma deref_assign_link c r l :
  deref (assign_link c r l) r = with_link l <$> deref c r.
Proof. unfold deref, files_get, assign_link. simpl. apply deref_assign_in. Qed.

Lemma keeps_refl s : keeps s s.
Proof. repeat split. exists []. rewrite app_nil_r. reflexivity. Qed.

Lemma keeps_trans s1 s2 s3 : keeps s1 s2 -> keeps s2 s3 -> keeps s1 s3.
Proof.
  intros (A1 & A2 & A3 & A4 & A5 & A6 & A7 & o1 & A8) (B1 & B2 & B3 & B4 & B5 & B6 & B7 & o2 & B8).
  repeat split; try congruence.
  exists (o1 ++ o2). rewrite B8, A8, app_assoc. reflexivity.
Qed.

Lemma quiet_ret {A} (a : A) : quiet (ret a).
Proof. intros s. apply keeps_refl. Qed.

Lemma quiet_raise {A} e : quiet (@raise A e).
Proof. intros s. apply keeps_refl. Qed.

Lemma quiet_lift {A} (r : res A) : quiet (lift r).
Proof. intros s. apply keeps_refl. Qed.

Lemma quiet_get : quiet get.
Proof. intros s. apply keeps_refl. Qed.

Lemma quiet_print line : quiet (print line).
Proof. intros s. repeat split. exists [line]. reflexivity. Qed.

Lemma quiet_suggestion o : quiet (modify (set_link_suggestion o)).
Proof. intros s. repeat split. exists []. simpl. rewrite app_nil_r. reflexivity. Qed.

Lemma quiet_bind {A B} (m : M A) (k : A -> M B) :
  quiet m -> (forall a, quiet (k a)) -> quiet (bind m k).
Proof.
  intros Hm Hk s. unfold bind. specialize (Hm s).
  destruct (m s) as [[a|e] s1]; simpl in *; [|exact Hm].
  eapply keeps_trans; [exact Hm|apply Hk].
Qed.

Lemma quiet_for_each {A} (l : list A) (body : A -> M unit) :
  (forall x, quiet (body x)) -> quiet (for_each l body).
Proof.
  intros Hb. induction l as [|x l IH]; simpl.
  - apply quiet_ret.
  - apply quiet_bind; [apply Hb|intros _; exact IH].
Qed.

Lemma quiet_print_warning message : quiet (print_warning message).
Proof. apply quiet_print. Qed.

Lemma quiet_context_line s txt entity : quiet (context_line s txt entity).
Proof.
  unfold context_line. destruct (files_get _ _); [|apply quiet_raise].
  destruct (get_context _ _ _). apply quiet_print.
Qed.

Lemma quiet_print_suggestion o : quiet (print_suggestion o).
Proof.
  destruct o as [l|]; simpl; [|apply quiet_ret].
  destruct (String.eqb l ""); [apply quiet_ret|apply quiet_print].
Qed.

Lemma quiet_print_entity c r : quiet (print_entity c r).
Proof.
  unfold print_entity.
  destruct r as [r|]; [|apply quiet_raise].
  destruct (deref c r) as [e|]; [|apply quiet_raise].
  apply quiet_bind; [apply quiet_print|intros _].
  apply quiet_bind; [apply quiet_get|intros s2].
  apply quiet_bind; [apply quiet_for_each; intros; apply quiet_context_line|intros _].
  apply quiet_bind; [apply quiet_suggestion|intros _].
  apply quiet_print_suggestion.
Qed.

Lemma action_print_next_unfold s :
  action_print_next s =
  print_entity (Corpus_next (annotations s) (corpus s)).2
               (Corpus_next (annotations s) (corpus s)).1
               (set_next_entity (Corpus_next (annotations s) (corpus s)).1
                  (set_corpus (Corpus_next (annotations s) (corpus s)).2 s)).
Proof.
  unfold action_print_next, bind, get, modify.
  destruct (Corpus_next (annotations s) (corpus s)) as [r c]. reflexivity.
Qed.

(** The state [action_print_next] ends in, whether it returns or raises:
    [Corpus.next] was called once. *)
Lemma action_print_next_state s :
  let s' := (action_print_next s).2 in
  corpus s' = (Corpus_next (annotations s) (corpus s)).2
  /\ next_entity s' = (Corpus_next (annotations s) (corpus s)).1
  /\ annotations s' = annotations s /\ CONTEXT_SIZE s' = CONTEXT_SIZE s
  /\ DEBUG s' = DEBUG s /\ backups s' = backups s
  /\ requested s' = requested s
  /\ exists out, stdout s' = stdout s ++ out.
Proof.
  rewrite action_print_next_unfold.
  exact (quiet_print_entity _ _ _).
Qed.

Lemma set_stdout_same s : set_stdout (stdout s ++ []) s = s.
Proof. destruct s. unfold set_stdout. simpl. rewrite app_nil_r. reflexivity. Qed.

Lemma bind_ok {A B} (m : M A) (k : A -> M B) s a s' :
  m s = (Ok a, s') -> bind m k s = k a s'.
Proof. intros H. unfold bind. rewrite H. reflexivity. Qed.

Lemma bind_raise {A B} (m : M A) (k : A -> M B) s e s' :
  m s = (Raise e, s') -> bind m k s = (Raise e, s').
Proof. intros H. unfold bind. rewrite H. reflexivity. Qed.

Lemma bind_get {A} (k : Annotator -> M A) s : bind get k s = k s s.
Proof. reflexivity. Qed.

Lemma bind_print {A} line (k : unit -> M A) s :
  bind (print line) k s = k tt (set_stdout (stdout s ++ [line]) s).
Proof. reflexivity. Qed.

Lemma bind_modify {A} f (k : unit -> M A) s : bind (modify f) k s = k tt (f s).
Proof. reflexivity. Qed.

(** What follows a step leaves alone what [keeps] lists, if every
    continuation does. *)
Lemma keeps_bind_tail {A B} (m : M A) (k : A -> M B) s :
  (forall a, quiet (k a)) -> keeps (m s).2 (bind m k s).2.
Proof.
  intros Hk. unfold bind. destruct (m s) as [[a|e] s1]; simpl.
  - apply Hk.
  - apply keeps_refl.
Qed.

Lemma deref_same_files c c' r : files c' = files c -> deref c' r = deref c r.
Proof. unfold deref, files_get. intros ->. reflexivity. Qed.

(** ** Displaying the next entity type *)







(** ** Accepting a suggestion *)


(** ** Storing a link *)

Lemma bind_validate_link {A} l (k : bool -> M A) s :
  bind (validate_link l) k s =
  if String.eqb l "" then k true s
  else
    match requests_get l with
    | Ok code => k (code =? 200) (set_requested (requested s ++ [l]) s)
    | Raise e => (Raise e, set_requested (requested s ++ [l]) s)
    end.
Proof.
  unfold validate_link. destruct (String.eqb l ""); [reflexivity|].
  unfold bind, modify, lift, ret. simpl.
  destruct (requests_get l); reflexivity.
Qed.

Lemma validate_link_outcome l s :
  (validate_link l s).1 =
  if String.eqb l "" then Ok true
  else match requests_get l with
       | Ok code => Ok (code =? 200)
       | Raise e => Raise e
       end.
Proof.
  unfold validate_link. destruct (String.eqb l ""); [reflexivity|].
  unfold bind, modify, lift, ret. simpl.
  destruct (requests_get l); reflexivity.
Qed.

Lemma bind_annotate {A} r e l (k : unit -> M A) s :
  deref (corpus s) r = Some e ->
  bind (annotate r l) k s =
  k tt (set_annotations (add_link (annotations s) (with_link (Some l) e) l)
          (set_corpus (assign_link (corpus s) r (Some l)) s)).
Proof.
  intros He. unfold annotate. unfold bind, modify, get. simpl.
  rewrite deref_assign_link, He. reflexivity.
Qed.

(** The printing of the last annotations when debugging. *)
Lemma quiet_debug_tail :
  quiet (do s <- get;
         if DEBUG s then
           for_each (last_five (annotations s)) (fun a => print (annotation_str a))
         else ret tt).
Proof.
  apply quiet_bind; [apply quiet_get|intros s].
  destruct (DEBUG s); [|apply quiet_ret].
  apply quiet_for_each. intros a. apply quiet_print.
Qed.

(** After [action_print_next] and what may follow it. *)
Lemma print_next_then {A} (k : M A) s :
  quiet k ->
  corpus ((action_print_next ;; k) s).2 = (Corpus_next (annotations s) (corpus s)).2
  /\ next_entity ((action_print_next ;; k) s).2 = (Corpus_next (annotations s) (corpus s)).1
  /\ annotations ((action_print_next ;; k) s).2 = annotations s
  /\ requested ((action_print_next ;; k) s).2 = requested s
  /\ exists out, stdout ((action_print_next ;; k) s).2 = stdout s ++ out.
Proof.
  intros Hk.
  assert (Ht : keeps (action_print_next s).2 ((action_print_next ;; k) s).2)
    by (apply keeps_bind_tail; intros _; exact Hk).
  destruct (action_print_next_state s) as (Hc & Hn & Ha & _ & _ & _ & Hq & o1 & Ho).
  destruct Ht as (Tc & Tn & Ta & _ & _ & _ & Tq & o2 & To).
  repeat split; try congruence.
  exists (o1 ++ o2). rewrite To, Ho, app_assoc. reflexivity.
Qed.






(** ** Correcting a link *)

Lemma debug_loop_off message s : DEBUG s = false -> debug_loop message s = (Ok tt, s).
Proof. intros H. unfold debug_loop. rewrite bind_get, H. reflexivity. Qed.

Lemma leaves_fix arg : leaves (Some ("f " +:+ arg)) = false.
Proof. reflexivity. Qed.

Lemma dispatch_fix arg : dispatch (Some ("f " +:+ arg)) = action_fix_link arg.
Proof. reflexivity. Qed.

(** C4 (the code where the claim fails).  A fix-link request whose
    identifier part is not an integer literal raises [ValueError] in
    [action_fix_link], before the link is looked at; nothing in [loop]
    catches it, so the loop ends with that exception. *)
Theorem fix_link_bad_identifier_raises (s : Annotator) (arg : string) (lines : list string) :
  PyStr.int (PyStr.split_once " "%char arg).1 = None ->
  action_fix_link arg s = (Raise ValueError, s)
  /\ (DEBUG s = false -> action s = Some ("f " +:+ arg) ->
      iterate lines s = (Raise ValueError, s)).
Proof.
  intros Hint.
  assert (Hfix : action_fix_link arg s = (Raise ValueError, s)).
  { unfold action_fix_link.
    destruct (PyStr.split_once " "%char arg) as [ident [l|]]; [|reflexivity].
    simpl in Hint. rewrite Hint. reflexivity. }
  split; [exact Hfix|].
  intros Hd Ha.
  destruct lines as [|line rest]; cbn [iterate];
    rewrite (bind_ok _ _ _ _ _ (debug_loop_off "START OF LOOP:" s Hd));
    rewrite bind_get, Ha, leaves_fix, dispatch_fix; cbv beta iota;
    apply bind_raise; exact Hfix.
Qed.

(** ** The context size *)

Lemma slice_empty src i : PyStr.slice src i i = "".
Proof. unfold PyStr.slice. rewrite Nat.sub_diag. reflexivity. Qed.

(** C7 (as amended).  Every input that [int] reads is stored as the context
    size, as it is: 0 is stored and gives empty context strings, and a
    negative integer such as -5 is stored as a negative size, neither clamped
    nor rejected.  An input that [int] does not read is rejected with a
    warning, the size staying what it was. *)
Theorem set_context_stores_any_integer (s : Annotator) :
  (forall str n, PyStr.int str = Some n ->
     action_set_context str s = (Ok tt, set_CONTEXT_SIZE n s))
  /\ PyStr.int "0" = Some 0
  /\ PyStr.int "-5" = Some (-5)
  /\ (forall f e, get_context f 0 e = ("", ""))
  /\ (forall str, PyStr.int str = None ->
        action_set_context str s =
        (Ok tt,
         set_stdout
           (stdout s ++ [nl +:+ "WARNING: context size has to be an integer, ignoring command"])
           s)).
Proof.
  split; [|split; [|split; [|split]]].
  - intros str n H. unfold action_set_context. rewrite H. reflexivity.
  - reflexivity.
  - reflexivity.
  - intros f e. unfold get_context.
    rewrite Z.sub_0_r, Z.add_0_r, !slice_empty. reflexivity.
  - intros str H. unfold action_set_context. rewrite H. reflexivity.
Qed.

(** ** Status *)

Lemma round_zero : PyNum.round (PyNum.to_float 0) = Ok 0.
Proof. vm_compute. reflexivity. Qed.

Lemma file_status_empty f : data f = ∅ -> file_status f = (0, 0, PyNum.to_float 0).
Proof.
  intros H. unfold file_status. rewrite H, map_filter_empty, map_size_empty.
  reflexivity.
Qed.

Lemma status_files_empty fs : forall s,
  Forall (fun f => data f = ∅) fs ->
  exists s', status_files fs 0 0 s = (Ok (0, 0), s').
Proof.
  induction fs as [|f fs IH]; intros s H.
  - exists s. reflexivity.
  - inversion H as [|? ? Hf Hfs]; subst. cbn [status_files].
    rewrite (file_status_empty f Hf). cbv beta iota. rewrite round_zero.
    rewrite (bind_ok (lift (Ok 0)) _ s 0 s eq_refl), bind_print.
    apply IH, Hfs.
Qed.

(** C1 (the code where the claim fails).  On a corpus without any entity
    type, [status] prints its heading and the line of each file and then
    divides zero by zero: it ends with [ZeroDivisionError], not with a
    percentage. *)
Theorem status_without_entity_types_raises (s : Annotator) :
  Forall (fun f => data f = ∅) (get_files (corpus s)) ->
  (status s).1 = Raise ZeroDivisionError.
Proof.
  intros H. unfold status. rewrite bind_get, bind_print.
  destruct (status_files_empty _ (set_stdout (stdout s ++
              [nl +:+ "Status on " +:+ annotations_folder (corpus s) +:+ nl]) s) H)
    as [s' Hs].
  unfold bind at 1. simpl corpus. rewrite Hs. reflexivity.
Qed.

End Tool.

(** ** Normalization *)

Lemma wikipedia_has_scheme t : has_scheme (WIKIPEDIA +:+ t) = true.
Proof. reflexivity. Qed.

(** C8.  [normalize_link] is idempotent: normalizing a normalized link
    changes nothing, for the dash, bare titles and full URLs alike. *)
Theorem normalize_link_idempotent (x : string) :
  normalize_link (normalize_link x) = normalize_link x.
Proof.
  destruct (String.eqb x "" || String.eqb x "-") eqn:E.
  - assert (H : normalize_link x = "") by (unfold normalize_link; rewrite E; reflexivity).
    rewrite H. reflexivity.
  - destruct (has_scheme x) eqn:Hs.
    + assert (H : normalize_link x = x)
        by (unfold normalize_link; rewrite E, Hs; reflexivity).
      rewrite H. exact H.
    + assert (H : normalize_link x = WIKIPEDIA +:+ PyStr.replace_char " " "_" x)
        by (unfold normalize_link; rewrite E, Hs; reflexivity).
      rewrite H. unfold normalize_link. rewrite wikipedia_has_scheme. reflexivity.
Qed.

(** ** What is suggested *)

Lemma count_votes fs entity_text l :
  count_occ string_dec (flat_map (vote entity_text) fs) l
  = length (List.filter (holds entity_text l) fs).
Proof.
  induction fs as [|f fs IH]; simpl; [reflexivity|].
  rewrite count_occ_app, IH. unfold vote, holds.
  destruct (decision entity_text f) as [l'|]; simpl; [|reflexivity].
  destruct (string_dec l' l) as [E|E].
  - subst l'. rewrite String.eqb_refl. reflexivity.
  - apply String.eqb_neq in E. rewrite E. reflexivity.
Qed.

Lemma filter_length_bound {A} (p : A -> bool) (l : list A) :
  (length (List.filter p l) <= length l)%nat.
Proof. induction l as [|x l IH]; simpl; [lia|]. destruct (p x); simpl; lia. Qed.

(** Two ways of cutting one list at an element. *)
Lemma cut_twice {A} (x y : A) : forall b1 a1 b2 a2,
  b1 ++ x :: a1 = b2 ++ y :: a2 -> x = y \/ In x b2 \/ In y b1.
Proof.
  induction b1 as [|z b1 IH]; intros a1 [|z' b2] a2 H; simpl in H; inversion H; subst.
  - left. reflexivity.
  - right. left. left. reflexivity.
  - right. right. left. reflexivity.
  - destruct (IH _ _ _ H2) as [E|[E|E]]; [left; exact E|right; left; right; exact E|].
    right. right. right. exact E.
Qed.

(** There is one first item of largest count. *)
Lemma first_largest_unique (l : list string) x y :
  (forall z, (count_occ string_dec l z <= count_occ string_dec l x)%nat) ->
  (exists b a, l = b ++ x :: a
     /\ forall z, In z b -> (count_occ string_dec l z < count_occ string_dec l x)%nat) ->
  (forall z, (count_occ string_dec l z <= count_occ string_dec l y)%nat) ->
  (exists b a, l = b ++ y :: a
     /\ forall z, In z b -> (count_occ string_dec l z < count_occ string_dec l y)%nat) ->
  x = y.
Proof.
  intros Hx (b1 & a1 & E1 & F1) Hy (b2 & a2 & E2 & F2).
  rewrite E1 in E2 at 1.
  destruct (cut_twice _ _ _ _ _ _ E2) as [E|[E|E]]; [exact E|exfalso|exfalso].
  - specialize (F2 _ E). specialize (Hx y). lia.
  - specialize (F1 _ E). specialize (Hy x). lia.
Qed.

(** C5.  [suggest_link] goes through the files in their order and takes
    from each the link that is not [None] which it holds for exactly the
    given surface text, if any: a link is counted once for each file that
    holds it.  It returns [None] when no link is found, and otherwise the
    link that is counted at least as often as any other and is the first
    one met in the scan among those, and no other; when all the links found
    are one and the same link, that link is returned. *)
Theorem suggest_link_most_frequent (c : Corpus) (entity_text : string) :
  let found := flat_map (vote entity_text) (get_files c) in
  (forall l, In l found <->
     exists f e, In f (get_files c) /\ data f !! entity_text = Some e /\ link e = Some l)
  /\ (forall l, count_occ string_dec found l = files_holding c entity_text l)
  /\ (found = [] -> suggest_link c entity_text = None)
  /\ (forall l, suggest_link c entity_text = Some l <->
        (forall l', (count_occ string_dec found l' <= count_occ string_dec found l)%nat)
        /\ exists before after, found = before ++ l :: after
             /\ forall l', In l' before ->
                  (count_occ string_dec found l' < count_occ string_dec found l)%nat)
  /\ (forall l, found <> [] -> (forall l', In l' found -> l' = l) ->
        suggest_link c entity_text = Some l).
Proof.
  cbv zeta.
  assert (E : collect (get_files c) entity_text [] = flat_map (vote entity_text) (get_files c))
    by (rewrite collect_votes; reflexivity).
  split; [|split; [|split; [|split]]].
  - intros l. apply in_votes.
  - intros l. apply count_votes.
  - intros H. apply suggest_link_none. rewrite E. exact H.
  - intros l. split.
    + intros H. unfold suggest_link in H. rewrite E in H.
      exact (first_most_common _ _ H).
    + intros [Hmax Hfirst].
      assert (Hne : collect (get_files c) entity_text [] <> []).
      { rewrite E. destruct Hfirst as (b & a & Hl & _). rewrite Hl.
        intros H. destruct b; discriminate H. }
      destruct (suggest_link_some _ _ Hne) as (x & Hx & _).
      rewrite Hx. f_equal.
      unfold suggest_link in Hx. rewrite E in Hx.
      destruct (first_most_common _ _ Hx) as [Hxmax Hxfirst].
      exact (first_largest_unique _ x l Hxmax Hxfirst Hmax Hfirst).
  - intros l Hne Hall.
    assert (Hne' : collect (get_files c) entity_text [] <> []) by (rewrite E; exact Hne).
    destruct (suggest_link_some _ _ Hne') as (l' & Hl & Hin).
    rewrite Hl. f_equal. apply Hall. rewrite <- E. exact Hin.
Qed.

Lemma decision_remention g f entity_text :
  decision entity_text
    (with_data ((fun e => with_entities (g e) e) <$> data f) f)
  = decision entity_text f.
Proof.
  unfold decision, with_data. simpl. rewrite lookup_fmap.
  destruct (data f !! entity_text); reflexivity.
Qed.

Lemma votes_remention g fs entity_text :
  flat_map (vote entity_text)
    (map (fun f => with_data ((fun e => with_entities (g e) e) <$> data f) f) fs)
  = flat_map (vote entity_text) fs.
Proof.
  induction fs as [|f fs IH]; simpl; [reflexivity|].
  rewrite IH. unfold vote. rewrite decision_remention. reflexivity.
Qed.

Lemma holding_remention g fs entity_text l :
  length (List.filter (holds entity_text l)
            (map (fun f => with_data ((fun e => with_entities (g e) e) <$> data f) f) fs))
  = length (List.filter (holds entity_text l) fs).
Proof.
  induction fs as [|f fs IH]; simpl; [reflexivity|].
  replace (holds entity_text l
             (with_data ((fun e => with_entities (g e) e) <$> data f) f))
    with (holds entity_text l f)
    by (unfold holds; rewrite decision_remention; reflexivity).
  destruct (holds entity_text l f); simpl; rewrite IH; reflexivity.
Qed.

(** C9.  In [suggest_link] each file has at most one vote for a surface
    text, the link its [data] holds for it, and the majority is taken over
    the files: a link is suggested only if at least one file holds it and no
    other link is held by more files, and whenever some file holds a link
    for the text a suggestion is made.  The mentions an entity type groups
    play no part: the number of files holding a link and the suggestion are
    the same whatever the mentions are replaced with. *)
Theorem one_vote_per_file (c : Corpus) (entity_text : string) :
  (forall f, (length (vote entity_text f) <= 1)%nat)
  /\ (forall l, (files_holding c entity_text l <= length (get_files c))%nat)
  /\ (forall l, suggest_link c entity_text = Some l ->
        (1 <= files_holding c entity_text l)%nat
        /\ forall l', (files_holding c entity_text l' <= files_holding c entity_text l)%nat)
  /\ ((exists f l, In f (get_files c) /\ decision entity_text f = Some l) ->
      suggest_link c entity_text <> None)
  /\ (forall (g : EntityType -> list Entity) l,
        files_holding (remention g c) entity_text l = files_holding c entity_text l)
  /\ forall g : EntityType -> list Entity,
       suggest_link (remention g c) entity_text = suggest_link c entity_text.
Proof.
  assert (E : collect (get_files c) entity_text [] = flat_map (vote entity_text) (get_files c))
    by (rewrite collect_votes; reflexivity).
  split; [apply vote_length|]. split; [intros l; apply filter_length_bound|].
  split; [|split; [|split]].
  - intros l H. unfold suggest_link in H. rewrite E in H.
    destruct (first_most_common _ _ H) as [Hmax (b & a & Hl & _)].
    unfold files_holding. rewrite <- !count_votes. split.
    + apply (count_occ_In string_dec). rewrite Hl. apply in_elt.
    + intros l'. rewrite <- count_votes. apply Hmax.
  - intros (f & l & Hf & Hd).
    assert (Hne : collect (get_files c) entity_text [] <> []).
    { rewrite E. intros H.
      assert (Hin : In l (flat_map (vote entity_text) (get_files c))).
      { apply in_flat_map. exists f. split; [exact Hf|].
        unfold vote. rewrite Hd. left. reflexivity. }
      rewrite H in Hin. destruct Hin. }
    destruct (suggest_link_some _ _ Hne) as (x & Hx & _). rewrite Hx. discriminate.
  - intros g l. unfold files_holding, remention, get_files. simpl.
    apply holding_remention.
  - intros g. unfold suggest_link. rewrite !collect_votes.
    unfold remention, get_files. simpl. rewrite votes_remention. reflexivity.
Qed.

Lemma only_sentinel_votes c entity_text :
  only_sentinel c entity_text = true ->
  collect (get_files c) entity_text [] <> []
  /\ forall l, In l (collect (get_files c) entity_text []) -> l = "".
Proof.
  unfold only_sentinel. rewrite andb_true_iff, existsb_exists, forallb_forall.
  intros [(f & Hf & Hd) Hall]. rewrite collect_votes. simpl. split.
  - intros Hnil.
    assert (Hin : In "" (flat_map (vote entity_text) (get_files c))).
    { apply in_flat_map. exists f. split; [exact Hf|].
      unfold vote. destruct (decision entity_text f) as [l|]; [|discriminate].
      apply String.eqb_eq in Hd. subst l. left. reflexivity. }
    rewrite Hnil in Hin. destruct Hin.
  - intros l Hl. apply in_flat_map in Hl. destruct Hl as (f' & Hf' & Hl).
    specialize (Hall _ Hf'). unfold vote in Hl.
    destruct (decision entity_text f') as [l'|]; [|destruct Hl].
    destruct Hl as [<-|[]]. apply String.eqb_eq in Hall. exact Hall.
Qed.

(** C2 (as amended).  For a surface text whose only stored decision is the
    empty-link sentinel, [suggest_link] returns the sentinel itself, the
    empty string, and not [None]: the scan collects the links that are not
    [None], and the empty string is one of them.  [action_print_next] prints
    no suggestion line for it, the empty string being false. *)
Theorem sentinel_is_suggested_not_printed
  (c : Corpus) (entity_text : string) (s : Annotator) :
  only_sentinel c entity_text = true ->
  suggest_link c entity_text = Some ""
  /\ print_suggestion (suggest_link c entity_text) s = (Ok tt, s).
Proof.
  intros H. destruct (only_sentinel_votes _ _ H) as [Hne Hall].
  destruct (suggest_link_some _ _ Hne) as (l & Hl & Hin).
  rewrite Hl. rewrite (Hall _ Hin). split; reflexivity.
Qed.

(** * The tool on the small corpus *)

Abbreviation demo_store_link :=
  (action_store_link Demo.BOLD Demo.END Demo.RED Demo.BLUE Demo.web Demo.line_of).
Abbreviation demo_accept_hint :=
  (action_accept_hint Demo.BOLD Demo.END Demo.RED Demo.BLUE).
Abbreviation demo_loop :=
  (loop Demo.BOLD Demo.END Demo.RED Demo.BLUE Demo.PROMPT Demo.web Demo.help
        Demo.line_of Demo.line_of Demo.entity_str).

Example strip_ex : PyStr.strip "  l  Jim Lehrer " = "l  Jim Lehrer".
Proof. reflexivity. Qed.

Example split_ex : PyStr.split_once " "%char "3 Jane Doe" = ("3", Some "Jane Doe").
Proof. reflexivity. Qed.

Example int_ex : PyStr.int "-5" = Some (-5) /\ PyStr.int "1_0" = Some 10
                 /\ PyStr.int "abc" = None /\ PyStr.int "" = None
                 /\ PyStr.int "1__0" = None /\ PyStr.int " 07 " = Some 7.
Proof. repeat split; reflexivity. Qed.

(** A separator character around the digits is not white space for [int],
    though [strip] takes it off. *)
Example int_separator_ex :
  PyStr.int (String "028"%char "7") = None
  /\ PyStr.int (String "7"%char (String "031"%char "")) = None
  /\ PyStr.strip (String "028"%char "7") = "7"
  /\ PyStr.int (String "009"%char "7 ") = Some 7.
Proof. repeat split; reflexivity. Qed.

Example fmt_ex : PyStr.fmt_d 4 12 = "  12" /\ PyStr.fmt_d 3 100 = "100"
                 /\ PyStr.fmt_s_left 5 "ab" = "ab   ".
Proof. repeat split; reflexivity. Qed.

Example round_ex :
  PyNum.round (PrimFloat.mul (PrimFloat.div (PyNum.to_float 1) (PyNum.to_float 8)) PyNum.hundred) = Ok 12
  /\ PyNum.round (PrimFloat.mul (PrimFloat.div (PyNum.to_float 3) (PyNum.to_float 8)) PyNum.hundred) = Ok 38
  /\ PyNum.round (PrimFloat.mul (PrimFloat.div (PyNum.to_float 2) (PyNum.to_float 3)) PyNum.hundred) = Ok 67.
Proof. repeat split; vm_compute; reflexivity. Qed.

Example most_common_ex :
  most_common (Counter ["b"; "a"; "c"; "a"; "b"]) = [("b", 2%nat); ("a", 2%nat); ("c", 1%nat)].
Proof. reflexivity. Qed.

Example normalize_ex :
  normalize_link "Jim Lehrer" = Demo.jim_url /\ normalize_link "-" = ""
  /\ normalize_link Demo.jim_url = Demo.jim_url.
Proof. repeat split; reflexivity. Qed.

Example context_ex :
  get_context Demo.d1 5 {| file_name := "d1.ann"; start := 19; stop := 29 |} = ("I am ", ". Acm").
Proof. reflexivity. Qed.

Example suggest_voted : suggest_link Demo.voted "Jim Lehrer" = Some Demo.jim_url.
Proof. vm_compute. reflexivity. Qed.

Example suggest_tied : suggest_link Demo.tied "Jim Lehrer" = Some Demo.james_url.
Proof. vm_compute. reflexivity. Qed.

Example suggest_unseen : suggest_link Demo.voted "Acme Corp" = None.
Proof. vm_compute. reflexivity. Qed.

(** Storing a valid link for the current entity: one record, and the
    traversal moves on to Jim Lehrer. *)
Example store_link_ex :
  let s1 := (demo_store_link "James Lehrer" Demo.s0).2 in
  map la_link (annotations s1) = [Demo.james_url]
  /\ map identifier (annotations s1) = [1]
  /\ next_entity s1 = Some Demo.jim_ref
  /\ deref (corpus s1) Demo.acme_ref = Some (with_link (Some Demo.james_url) Demo.acme).
Proof. vm_compute. repeat split; reflexivity. Qed.

(** On a corpus that is fully annotated the last line of [status] says 100. *)
Example status_complete :
  (status Demo.complete).1 = Ok tt
  /\ last (stdout (status Demo.complete).2) =
     Some ("    " +:+ PyStr.spaces 39 +:+ "  " +:+ "   2" +:+ " " +:+ "100" +:+ "%").
Proof. vm_compute. split; reflexivity. Qed.

(** ** The theorems at the small corpus *)

(** [status] on the corpus without entity types. *)
Lemma status_hollow_raises :
  Forall (fun f => data f = ∅) (get_files (corpus Demo.hollow))
  /\ (status Demo.hollow).1 = Raise ZeroDivisionError.
Proof.
  assert (H : Forall (fun f => data f = ∅) (get_files (corpus Demo.hollow)))
    by (repeat constructor).
  split; [exact H|]. exact (status_without_entity_types_raises Demo.hollow H).
Defined.

(** The tool started on that corpus ends at once: [loop] calls [status]
    before it reads a command. *)
Example run_hollow : (demo_loop ["q"] Demo.hollow).1 = Raise ZeroDivisionError.
Proof. vm_compute. reflexivity. Qed.

(** C2, as stated, fails: the dash is stored for Acme Corp, the sentinel is
    then its only stored decision, and [suggest_link] returns the empty
    string for it, which is not [None]. *)
Lemma dash_is_suggested_afterwards :
  let c := corpus (demo_store_link "-" Demo.s0).2 in
  map la_link (annotations (demo_store_link "-" Demo.s0).2) = [""]
  /\ only_sentinel c "Acme Corp" = true
  /\ suggest_link c "Acme Corp" = Some ""
  /\ suggest_link c "Acme Corp" <> None.
Proof.
  cbv zeta. split; [vm_compute; reflexivity|].
  split; [vm_compute; reflexivity|].
  assert (H : suggest_link (corpus (demo_store_link "-" Demo.s0).2) "Acme Corp" = Some "")
    by (vm_compute; reflexivity).
  split; [exact H|]. rewrite H. discriminate.
Qed.

Lemma sentinel_suggested_at_acme :
  only_sentinel (corpus (demo_store_link "-" Demo.s0).2) "Acme Corp" = true
  /\ suggest_link (corpus (demo_store_link "-" Demo.s0).2) "Acme Corp" = Some ""
  /\ print_suggestion
       (suggest_link (corpus (demo_store_link "-" Demo.s0).2) "Acme Corp") Demo.s0
     = (Ok tt, Demo.s0).
Proof.
  assert (H : only_sentinel (corpus (demo_store_link "-" Demo.s0).2) "Acme Corp" = true)
    by (vm_compute; reflexivity).
  split; [exact H|].
  exact (sentinel_is_suggested_not_printed _ "Acme Corp" Demo.s0 H).
Defined.





(** What accept-suggestion prints there: the warning, then Jim Lehrer and
    its context. *)
Example accept_hint_display_ex :
  stdout (demo_accept_hint Demo.s0).2
  = [ warning_line Demo.END Demo.RED Warnings.NO_LINK_SUGGESTION;
      entity_heading Demo.BOLD Demo.END Demo.jim;
      "    " +:+ PyStr.spaces 31 +:+ "Good evening. I am " +:+ "[" +:+ Demo.BLUE +:+
      "Jim Lehrer" +:+ Demo.END +:+ "]" +:+ ". Acme Corp fell today." ].
Proof. vm_compute. reflexivity. Qed.




(** The warning printed for the rejected title carries the link. *)
Example store_link_warning_ex :
  hd_error (stdout (demo_store_link "Acme Corporation" Demo.s0).2)
  = Some (nl +:+ Demo.RED +:+ "WARNING: " +:+
          "'https://en.wikipedia.org/wiki/Acme_Corporation' is not an entry in Wikipedia"
          +:+ Demo.END).
Proof. vm_compute. reflexivity. Qed.

Lemma fix_link_abc_raises :
  PyStr.int (PyStr.split_once " "%char "abc Jim_Lehrer").1 = None
  /\ action_fix_link Demo.END Demo.RED Demo.web "abc Jim_Lehrer" Demo.s0
     = (Raise ValueError, Demo.s0).
Proof.
  split; [reflexivity|].
  exact (proj1 (fix_link_bad_identifier_raises
                  Demo.BOLD Demo.END Demo.RED Demo.BLUE Demo.PROMPT Demo.web Demo.help
                  Demo.line_of Demo.line_of Demo.entity_str
                  Demo.s0 "abc Jim_Lehrer" [] eq_refl)).
Defined.

(** The whole tool on that command: the session ends with the exception, and
    the command after it is never read. *)
Example run_fix_abc :
  (demo_loop ["f abc Jim_Lehrer"; "s"] Demo.s0).1 = Raise ValueError.
Proof. vm_compute. reflexivity. Qed.

(** A sibling command given the same kind of input warns and goes on. *)
Example run_context_abc :
  (demo_loop ["c abc"; "q"] Demo.s0).1 = Ok tt.
Proof. vm_compute. reflexivity. Qed.

(** An identifier that no record carries, with a link that exists. *)
Example run_fix_unknown :
  (demo_loop ["f 7 Jim_Lehrer"; "q"] Demo.s0).1 = Raise KeyError.
Proof. vm_compute. reflexivity. Qed.

(** C7, as stated, fails: -5 is stored as the context size, without a
    word; it is neither 0 nor the size that was in effect. *)
Lemma negative_context_size_is_stored :
  CONTEXT_SIZE Demo.s0 = 50
  /\ action_set_context "-5" Demo.s0 = (Ok tt, set_CONTEXT_SIZE (-5) Demo.s0)
  /\ CONTEXT_SIZE (action_set_context "-5" Demo.s0).2 = -5
  /\ stdout (action_set_context "-5" Demo.s0).2 = stdout Demo.s0
  /\ ~ (CONTEXT_SIZE (action_set_context "-5" Demo.s0).2 = 0
        \/ CONTEXT_SIZE (action_set_context "-5" Demo.s0).2 = CONTEXT_SIZE Demo.s0).
Proof.
  repeat split; try reflexivity.
  intros [H|H]; vm_compute in H; discriminate.
Qed.

Lemma set_context_at_minus_five :
  PyStr.int "-5" = Some (-5)
  /\ action_set_context "-5" Demo.s0 = (Ok tt, set_CONTEXT_SIZE (-5) Demo.s0).
Proof.
  split; [reflexivity|].
  exact (proj1 (set_context_stores_any_integer Demo.s0) "-5" (-5) eq_refl).
Defined.

Lemma counts_at_voted l' :
  (count_occ string_dec [Demo.james_url; Demo.jim_url; Demo.jim_url] l' <= 2)%nat
  /\ (l' <> Demo.jim_url ->
      (count_occ string_dec [Demo.james_url; Demo.jim_url; Demo.jim_url] l' <= 1)%nat).
Proof.
  cbn [count_occ].
  destruct (string_dec Demo.jim_url l') as [H|_].
  - subst l'. destruct (string_dec Demo.james_url Demo.jim_url) as [H|_]; [discriminate H|].
    split; [lia|]. intros H. congruence.
  - destruct (string_dec Demo.james_url l'); split; intros; lia.
Qed.

Lemma suggest_link_at_voted :
  ((forall l', (count_occ string_dec (flat_map (vote "Jim Lehrer") (get_files Demo.voted)) l'
                <= count_occ string_dec (flat_map (vote "Jim Lehrer") (get_files Demo.voted))
                     Demo.jim_url)%nat)
   /\ exists before after,
        flat_map (vote "Jim Lehrer") (get_files Demo.voted) = before ++ Demo.jim_url :: after
        /\ forall l', In l' before ->
             (count_occ string_dec (flat_map (vote "Jim Lehrer") (get_files Demo.voted)) l'
              < count_occ string_dec (flat_map (vote "Jim Lehrer") (get_files Demo.voted))
                  Demo.jim_url)%nat)
  /\ suggest_link Demo.voted "Jim Lehrer" = Some Demo.jim_url.
Proof.
  assert (E : flat_map (vote "Jim Lehrer") (get_files Demo.voted)
              = [Demo.james_url; Demo.jim_url; Demo.jim_url])
    by (vm_compute; reflexivity).
  assert (Hj : count_occ string_dec [Demo.james_url; Demo.jim_url; Demo.jim_url] Demo.jim_url
               = 2%nat) by (vm_compute; reflexivity).
  assert (H : (forall l',
                 (count_occ string_dec (flat_map (vote "Jim Lehrer") (get_files Demo.voted)) l'
                  <= count_occ string_dec
                       (flat_map (vote "Jim Lehrer") (get_files Demo.voted))
                       Demo.jim_url)%nat)
              /\ exists before after,
                   flat_map (vote "Jim Lehrer") (get_files Demo.voted)
                   = before ++ Demo.jim_url :: after
                   /\ forall l', In l' before ->
                        (count_occ string_dec
                           (flat_map (vote "Jim Lehrer") (get_files Demo.voted)) l'
                         < count_occ string_dec
                             (flat_map (vote "Jim Lehrer") (get_files Demo.voted))
                             Demo.jim_url)%nat).
  { rewrite E, Hj. split.
    - intros l'. apply counts_at_voted.
    - exists [Demo.james_url], [Demo.jim_url]. split; [reflexivity|].
      intros l' [<-|[]]. vm_compute. lia. }
  split; [exact H|].
  exact (proj2 (proj1 (proj2 (proj2 (proj2
           (suggest_link_most_frequent Demo.voted "Jim Lehrer")))) Demo.jim_url) H).
Defined.

(** * More of the annotator *)

(** A method that changes nothing but the output. *)
Definition silent {A} (m : M A) : Prop :=
  forall s, exists out, (m s).2 = set_stdout (stdout s ++ out) s.

(** The search of [action_print_annotations]: the term occurs in the text of
    the annotation, both taken in lower case. *)
Definition matches (term : string) (a : LinkAnnotation) : bool :=
  PyStr.contains (PyStr.lower term) (PyStr.lower (la_text a)).

Lemma silent_ret {A} (a : A) : silent (ret a).
Proof. intros s. exists []. simpl. rewrite set_stdout_same. reflexivity. Qed.

Lemma silent_raise {A} e : silent (@raise A e).
Proof. intros s. exists []. simpl. rewrite set_stdout_same. reflexivity. Qed.

Lemma silent_lift {A} (r : res A) : silent (lift r).
Proof. intros s. exists []. simpl. rewrite set_stdout_same. reflexivity. Qed.

Lemma silent_get : silent get.
Proof. intros s. exists []. simpl. rewrite set_stdout_same. reflexivity. Qed.

Lemma silent_print line : silent (print line).
Proof. intros s. exists [line]. reflexivity. Qed.

Lemma silent_bind {A B} (m : M A) (k : A -> M B) :
  silent m -> (forall a, silent (k a)) -> silent (bind m k).
Proof.
  intros Hm Hk s. unfold bind. destruct (Hm s) as [o1 H1].
  destruct (m s) as [[a|e] s1]; simpl in *.
  - destruct (Hk a s1) as [o2 H2]. exists (o1 ++ o2).
    rewrite H2, H1. unfold set_stdout. simpl. rewrite app_assoc. reflexivity.
  - exists o1. exact H1.
Qed.

Lemma silent_for_each {A} (l : list A) (body : A -> M unit) :
  (forall x, silent (body x)) -> silent (for_each l body).
Proof.
  intros Hb. induction l as [|x l IH]; simpl.
  - apply silent_ret.
  - apply silent_bind; [apply Hb|intros _; exact IH].
Qed.

(** Printing the items of a list that pass a test. *)
Lemma for_each_print_filter {A} (p : A -> bool) (f : A -> string) (l : list A) : forall s,
  for_each l (fun x => if p x then print (f x) else ret tt) s
  = (Ok tt, set_stdout (stdout s ++ map f (List.filter p l)) s).
Proof.
  induction l as [|x l IH]; intros s; simpl.
  - rewrite set_stdout_same. reflexivity.
  - destruct (p x).
    + rewrite bind_print, IH. simpl. rewrite <- app_assoc. reflexivity.
    + unfold bind at 1. simpl. apply IH.
Qed.

Lemma for_each_print {A} (f : A -> string) (l : list A) s :
  for_each l (fun x => print (f x)) s
  = (Ok tt, set_stdout (stdout s ++ map f l) s).
Proof.
  revert s. induction l as [|x l IH]; intros s; simpl.
  - rewrite set_stdout_same. reflexivity.
  - rewrite bind_print, IH. simpl. rewrite <- app_assoc. reflexivity.
Qed.

Lemma lower_char_idempotent c : PyStr.lower_char (PyStr.lower_char c) = PyStr.lower_char c.
Proof.
  destruct c as [[] [] [] [] [] [] [] []]; reflexivity.
Qed.

Lemma lower_idempotent t : PyStr.lower (PyStr.lower t) = PyStr.lower t.
Proof.
  induction t as [|c t IH]; simpl; [reflexivity|].
  rewrite lower_char_idempotent, IH. reflexivity.
Qed.

(** A network that cannot be reached: every request raises. *)
Definition offline (url : string) : res Z := Raise RequestException.

(** The first characters of the commands that [dispatch] knows. *)
Definition command_letters : list ascii :=
  ["?"; "h"; "s"; "b"; "n"; "a"; "y"; "f"; "c"; "l"]%char.

(** The totals that [status] adds up, as the files report them. *)
Definition sum_types (fs : list CorpusFile) : Z :=
  fold_right (fun f acc => (file_status f).1.1 + acc) 0 fs.

Definition sum_types_done (fs : list CorpusFile) : Z :=
  fold_right (fun f acc => (file_status f).1.2 + acc) 0 fs.

Section More.

Variables ANSI_BOLD ANSI_END ANSI_RED ANSI_BLUE PROMPT : string.
Variable requests_get : string -> res Z.
Variable help_txt : res string.
Variable as_pretty_line : LinkAnnotation -> string.
Variable annotation_str : LinkAnnotation -> string.
Variable entity_type_str : EntityType -> string.

Set Default Proof Using "Type".

(** The methods of the tool with what they take from outside. *)
Local Abbreviation warning := (warning_line ANSI_END ANSI_RED).
Local Abbreviation print_next := (action_print_next ANSI_BOLD ANSI_END ANSI_BLUE).
Local Abbreviation accept_hint :=
  (action_accept_hint ANSI_BOLD ANSI_END ANSI_RED ANSI_BLUE).
Local Abbreviation store_link :=
  (action_store_link ANSI_BOLD ANSI_END ANSI_RED ANSI_BLUE requests_get annotation_str).
Local Abbreviation fix_link := (action_fix_link ANSI_END ANSI_RED requests_get).
Local Abbreviation print_annotations := (action_print_annotations as_pretty_line).
Local Abbreviation the_dispatch :=
  (dispatch ANSI_BOLD ANSI_END ANSI_RED ANSI_BLUE requests_get help_txt
            as_pretty_line annotation_str).
Local Abbreviation the_iterate :=
  (iterate ANSI_BOLD ANSI_END ANSI_RED ANSI_BLUE PROMPT requests_get help_txt
           as_pretty_line annotation_str entity_type_str).
Local Abbreviation the_loop :=
  (loop ANSI_BOLD ANSI_END ANSI_RED ANSI_BLUE PROMPT requests_get help_txt
        as_pretty_line annotation_str entity_type_str).

(** ** Commands that need a current entity *)

(** X1.  With no current entity, accept-suggestion and store-link do one
    thing only, which is to print the warning that no entity was selected:
    no link is fetched, whatever the link, nothing is stored and the
    traversal stays where it was. *)
Theorem no_entity_only_warns (s : Annotator) (l : string) :
  next_entity s = None ->
  accept_hint s = (Ok tt, set_stdout (stdout s ++ [warning Warnings.NO_ENTITY]) s)
  /\ store_link l s = (Ok tt, set_stdout (stdout s ++ [warning Warnings.NO_ENTITY]) s).
Proof.
  intros H. split.
  - unfold action_accept_hint. rewrite bind_get, H. reflexivity.
  - unfold action_store_link. rewrite bind_get, H. reflexivity.
Qed.

(** X2.  When the request made to check a link raises, store-link ends with
    that exception right away: the request is the only trace, nothing is
    printed or stored, the entity type keeps its link and the traversal does
    not move, unlike what happens when the link is rejected. *)
Theorem store_link_request_raises (s : Annotator) (r : EntRef) (l : string) (e : exn) :
  next_entity s = Some r ->
  normalize_link l <> "" ->
  requests_get (normalize_link l) = Raise e ->
  store_link l s = (Raise e, set_requested (requested s ++ [normalize_link l]) s).
Proof.
  intros Hr Hl He. unfold action_store_link.
  rewrite bind_get, Hr, bind_validate_link, He.
  apply String.eqb_neq in Hl. rewrite Hl. reflexivity.
Qed.

(** X3.  Accepting a suggestion asks nothing of the network: the suggested
    link becomes the link of the current entity type and goes to the store
    without being checked, and the traversal moves on from the state so
    reached. *)
Theorem accept_hint_annotates_unchecked
  (s : Annotator) (r : EntRef) (e : EntityType) (l : string) :
  next_entity s = Some r ->
  deref (corpus s) r = Some e ->
  link_suggestion s = Some l ->
  requested (accept_hint s).2 = requested s
  /\ annotations (accept_hint s).2 = add_link (annotations s) (with_link (Some l) e) l
  /\ deref (corpus (accept_hint s).2) r = Some (with_link (Some l) e)
  /\ next_entity (accept_hint s).2
     = (Corpus_next (add_link (annotations s) (with_link (Some l) e) l)
                    (assign_link (corpus s) r (Some l))).1.
Proof.
  intros Hr He Hl. unfold action_accept_hint.
  rewrite bind_get, Hr, Hl, (bind_annotate r e) by exact He.
  match goal with |- context [action_print_next _ _ _ ?s1] =>
    destruct (action_print_next_state ANSI_BOLD ANSI_END ANSI_BLUE s1)
      as (Hc & Hn & Ha & _ & _ & _ & Hq & _)
  end.
  simpl in Hc, Hn, Ha, Hq.
  split; [exact Hq|]. split; [exact Ha|]. split; [|exact Hn].
  rewrite Hc.
  rewrite (deref_same_files (assign_link (corpus s) r (Some l))).
  - rewrite deref_assign_link, He. reflexivity.
  - apply Corpus_next_cursor.
Qed.

(** ** Corrections *)

(** X4.  A fix-link request that has no space after the identifier, and so
    no link, raises [ValueError] when the two parts are unpacked, whatever
    the identifier is; the state is untouched. *)
Theorem fix_link_without_link_raises (s : Annotator) (arg : string) :
  (PyStr.split_once " "%char arg).2 = None ->
  fix_link arg s = (Raise ValueError, s).
Proof.
  intros H. unfold action_fix_link.
  destruct (PyStr.split_once " "%char arg) as [ident [l|]]; [discriminate|reflexivity].
Qed.

(** X5.  In fix-link the link is checked before the identifier is looked up:
    when the link is fetched and the answer is not 200, the command prints
    the warning naming the link and stops there, leaving the store as it
    was, whether or not a record carries the identifier. *)
Theorem fix_link_rejected_link (s : Annotator) (arg ident l : string) (n code : Z) :
  PyStr.split_once " "%char arg = (ident, Some l) ->
  PyStr.int ident = Some n ->
  normalize_link l <> "" ->
  requests_get (normalize_link l) = Ok code ->
  code <> 200 ->
  fix_link arg s
  = (Ok tt,
     set_stdout (stdout s ++ [warning (Warnings.NOT_IN_WIKIPEDIA (normalize_link l))])
       (set_requested (requested s ++ [normalize_link l]) s)).
Proof.
  intros Hs Hi Hl Hg Hc. unfold action_fix_link.
  rewrite Hs, Hi, bind_validate_link, Hg.
  apply String.eqb_neq in Hl. rewrite Hl.
  apply Z.eqb_neq in Hc. rewrite Hc. reflexivity.
Qed.

(** X6.  Whatever its argument and however it ends, fix-link leaves the
    corpus, the current entity and the current suggestion alone and adds at
    most one record at the end of the store: the link an entity type holds
    in memory is not corrected, so [suggest_link] proposes after a
    correction what it proposed before. *)
Theorem fix_link_leaves_the_corpus (s : Annotator) (arg : string) :
  corpus (fix_link arg s).2 = corpus s
  /\ next_entity (fix_link arg s).2 = next_entity s
  /\ link_suggestion (fix_link arg s).2 = link_suggestion s
  /\ (annotations (fix_link arg s).2 = annotations s
      \/ exists a, annotations (fix_link arg s).2 = annotations s ++ [a])
  /\ forall entity_text,
       suggest_link (corpus (fix_link arg s).2) entity_text
       = suggest_link (corpus s) entity_text.
Proof.
  assert (H : corpus (fix_link arg s).2 = corpus s
              /\ next_entity (fix_link arg s).2 = next_entity s
              /\ link_suggestion (fix_link arg s).2 = link_suggestion s
              /\ (annotations (fix_link arg s).2 = annotations s
                  \/ exists a, annotations (fix_link arg s).2 = annotations s ++ [a])).
  { unfold action_fix_link.
    destruct (PyStr.split_once " "%char arg) as [ident [l|]]; [|repeat split; left; reflexivity].
    destruct (PyStr.int ident) as [n|]; [|repeat split; left; reflexivity].
    rewrite bind_validate_link.
    destruct (String.eqb (normalize_link l) "").
    - rewrite bind_get. unfold bind, lift. simpl.
      destruct (get_annotation (annotations s) n) as [old|e]; simpl.
      + repeat split. right. eexists. reflexivity.
      + repeat split. left. reflexivity.
    - destruct (requests_get (normalize_link l)) as [code|e];
        [|repeat split; left; reflexivity].
      destruct (code =? 200).
      + rewrite bind_get. unfold bind, lift. simpl.
        destruct (get_annotation (annotations s) n) as [old|e]; simpl.
        * repeat split. right. eexists. reflexivity.
        * repeat split. left. reflexivity.
      + repeat split. left. reflexivity. }
  destruct H as (Hc & Hn & Hl & Ha).
  repeat split; try assumption. intros t. rewrite Hc. reflexivity.
Qed.

(** ** Status and listing *)

Lemma quiet_status_files fs : forall a b, quiet (status_files fs a b).
Proof.
  induction fs as [|f fs IH]; intros a b; cbn [status_files].
  - apply quiet_ret.
  - destruct (file_status f) as [[t d] p].
    apply quiet_bind; [apply quiet_lift|intros x].
    apply quiet_bind; [apply quiet_print|intros _]. apply IH.
Qed.

(** X7.  [status] only prints: whether it ends normally or with an
    exception, the corpus with its cursor, the current entity, the store,
    the context size and the requests made are what they were. *)
Theorem status_only_prints (s : Annotator) :
  corpus (status s).2 = corpus s
  /\ next_entity (status s).2 = next_entity s
  /\ annotations (status s).2 = annotations s
  /\ CONTEXT_SIZE (status s).2 = CONTEXT_SIZE s
  /\ requested (status s).2 = requested s
  /\ exists out, stdout (status s).2 = stdout s ++ out.
Proof.
  assert (Hq : quiet status).
  { unfold status.
    apply quiet_bind; [apply quiet_get|intros s0].
    apply quiet_bind; [apply quiet_print|intros _].
    apply quiet_bind; [apply quiet_status_files|intros [a b]].
    apply quiet_bind; [apply quiet_lift|intros q].
    apply quiet_bind; [apply quiet_lift|intros p].
    apply quiet_print. }
  destruct (Hq s) as (H1 & H2 & H3 & H4 & _ & _ & H7 & H8).
  repeat split; assumption.
Qed.

(** X8.  Listing the annotations prints a heading and then one line for
    each annotation of the store, in the order of the store; with a search
    term, one line for each annotation whose text has the term in it, case
    not counting, so that two terms that differ by case only select the same
    annotations.  Nothing but the output changes. *)
Theorem print_annotations_lists (s : Annotator) :
  print_annotations None s
  = (Ok tt,
     set_stdout (stdout s ++ (nl +:+ "Current annotations:" +:+ nl)
                            :: map as_pretty_line (annotations s)) s)
  /\ (forall term,
        print_annotations (Some term) s
        = (Ok tt,
           set_stdout (stdout s ++ (nl +:+ "Annotations matching '" +:+ term +:+ "':" +:+ nl)
                                  :: map as_pretty_line
                                       (List.filter (matches term) (annotations s))) s))
  /\ (forall term term', PyStr.lower term = PyStr.lower term' ->
        List.filter (matches term) (annotations s)
        = List.filter (matches term') (annotations s))
  /\ (forall term, List.filter (matches (PyStr.lower term)) (annotations s)
                   = List.filter (matches term) (annotations s)).
Proof.
  split; [|split; [|split]].
  - unfold action_print_annotations. rewrite bind_get, bind_print, for_each_print.
    simpl. rewrite <- app_assoc. reflexivity.
  - intros term. unfold action_print_annotations.
    rewrite bind_get, bind_print.
    rewrite (for_each_print_filter (matches term) as_pretty_line).
    simpl. rewrite <- app_assoc. reflexivity.
  - intros term term' H. apply filter_ext. intros a. unfold matches. rewrite H. reflexivity.
  - intros term. apply filter_ext. intros a. unfold matches.
    rewrite lower_idempotent. reflexivity.
Qed.

(** ** The loop *)

Lemma debug_loop_ok message s :
  exists s', debug_loop entity_type_str message s = (Ok tt, s') /\ action s' = action s.
Proof.
  unfold debug_loop. rewrite bind_get.
  destruct (DEBUG s); eexists; split; reflexivity.
Qed.

Lemma bind_ext {A B} (m : M A) (k1 k2 : A -> M B) s :
  (forall a s', k1 a s' = k2 a s') -> bind m k1 s = bind m k2 s.
Proof.
  intros H. unfold bind. destruct (m s) as [[a|e] s']; [apply H|reflexivity].
Qed.

Lemma iterate_without_quit lines : forall s,
  leaves (action s) = false ->
  Forall (fun line => leaves (Some (PyStr.strip line)) = false) lines ->
  (the_iterate lines s).1 <> Ok tt.
Proof.
  induction lines as [|line rest IH]; intros s Hs Hall; cbn [iterate];
    destruct (debug_loop_ok "START OF LOOP:" s) as (s1 & H1 & A1);
    rewrite (bind_ok _ _ _ _ _ H1), bind_get, A1, Hs; cbv beta iota;
    unfold bind at 1;
    destruct (the_dispatch (action s) s1) as [[[]|e] s2]; try (simpl; discriminate);
    destruct (debug_loop_ok "END OF LOOP, BEFORE PROMPT:" s2) as (s3 & H3 & A3);
    rewrite (bind_ok _ _ _ _ _ H3), bind_print.
  - simpl. discriminate.
  - rewrite bind_modify. inversion Hall; subst. apply IH; assumption.
Qed.

(** X9.  [loop] ends normally only on one of the commands that leave it:
    when no line of the input is [q], [quit] or [exit] once stripped, the
    loop ends with an exception, that of a command or the [EOFError] of
    [input] at the end of the input. *)
Theorem loop_ends_normally_on_quit_only (lines : list string) (s : Annotator) :
  Forall (fun line => leaves (Some (PyStr.strip line)) = false) lines ->
  (the_loop lines s).1 <> Ok tt.
Proof.
  intros H. unfold loop. rewrite !bind_modify.
  apply iterate_without_quit; [reflexivity|exact H].
Qed.

Lemma iterate_on_quit lines s :
  leaves (action s) = true -> the_iterate lines s = the_iterate [] s.
Proof.
  intros H.
  destruct (debug_loop_ok "START OF LOOP:" s) as (s1 & H1 & A1).
  destruct lines as [|line rest]; cbn [iterate]; [reflexivity|].
  rewrite !(bind_ok _ _ _ _ _ H1), !bind_get, A1, H. reflexivity.
Qed.

Lemma iterate_after_quit (q : string) (after : list string) :
  leaves (Some (PyStr.strip q)) = true ->
  forall before s, the_iterate (before ++ q :: after) s = the_iterate (before ++ [q]) s.
Proof.
  intros Hq. induction before as [|line rest IH]; intros s; cbn [app iterate];
    apply bind_ext; intros _ s1; rewrite !bind_get;
    destruct (leaves (action s1)); try reflexivity;
    apply bind_ext; intros _ s2; apply bind_ext; intros _ s3;
    apply bind_ext; intros _ s4; rewrite !bind_modify.
  - rewrite (iterate_on_quit after) by exact Hq. reflexivity.
  - apply IH.
Qed.

(** X10.  What comes after the first command that leaves the loop is never
    read: the run on the input up to and including a [q], [quit] or [exit]
    is the run on the whole input. *)
Theorem loop_stops_reading_at_quit (before after : list string) (q : string) (s : Annotator) :
  leaves (Some (PyStr.strip q)) = true ->
  the_loop (before ++ q :: after) s = the_loop (before ++ [q]) s.
Proof.
  intros Hq. unfold loop. rewrite !bind_modify.
  apply iterate_after_quit, Hq.
Qed.

(** ** Suggestions *)

(** X11.  A link that more files hold for the surface text than hold any
    other link is the one suggested, wherever those files stand in the order
    of the corpus. *)
Theorem suggest_link_strict_majority (c : Corpus) (entity_text l : string) :
  (1 <= files_holding c entity_text l)%nat ->
  (forall l', l' <> l ->
     (files_holding c entity_text l' < files_holding c entity_text l)%nat) ->
  suggest_link c entity_text = Some l.
Proof.
  intros Hin Hmaj.
  assert (E : collect (get_files c) entity_text [] = flat_map (vote entity_text) (get_files c))
    by (rewrite collect_votes; reflexivity).
  unfold files_holding in Hin, Hmaj. setoid_rewrite <- count_votes in Hmaj.
  rewrite <- count_votes in Hin.
  assert (Hne : collect (get_files c) entity_text [] <> []).
  { rewrite E. intros H. rewrite H in Hin. simpl in Hin. lia. }
  destruct (suggest_link_some _ _ Hne) as (x & Hx & _).
  rewrite Hx. f_equal.
  destruct (string_dec x l) as [Ex|Ex]; [exact Ex|exfalso].
  unfold suggest_link in Hx. rewrite E in Hx.
  destruct (first_most_common _ _ Hx) as [Hmax _].
  specialize (Hmax l). specialize (Hmaj x Ex). lia.
Qed.

Lemma silent_context_line s txt entity :
  silent (context_line ANSI_END ANSI_BLUE s txt entity).
Proof.
  unfold context_line. destruct (files_get _ _); [|apply silent_raise].
  destruct (get_context _ _ _). apply silent_print.
Qed.

(** X12.  When [action_print_next] ends normally, the suggestion the
    annotator holds is the one computed for the entity type that has just
    become current: the entity type [Corpus.next] gave, looked up in the
    corpus as it is now. *)
Theorem print_next_suggests_for_current (s : Annotator) :
  (print_next s).1 = Ok tt ->
  exists r e,
    (Corpus_next (annotations s) (corpus s)).1 = Some r
    /\ next_entity (print_next s).2 = Some r
    /\ deref (corpus (print_next s).2) r = Some e
    /\ link_suggestion (print_next s).2 = suggest_link (corpus (print_next s).2) (text e).
Proof.
  destruct (print_next s) as [out sf] eqn:Hrun. simpl. intros Hout. subst out.
  rewrite action_print_next_unfold in Hrun.
  destruct (Corpus_next (annotations s) (corpus s)) as [r0 c0].
  cbn [fst snd] in Hrun. unfold print_entity in Hrun.
  destruct r0 as [r|]; [|discriminate].
  destruct (deref c0 r) as [e|] eqn:He; [|discriminate].
  rewrite bind_print, bind_get in Hrun.
  match type of Hrun with context [bind (for_each ?l ?b) ?k ?s1] =>
    destruct (silent_for_each l b (silent_context_line _ _) s1) as [printed Ho];
    unfold bind at 1 in Hrun; destruct (for_each l b s1) as [[[]|ex] s2]
  end; [|discriminate].
  simpl in Ho. subst s2. rewrite bind_modify in Hrun.
  exists r, e. split; [reflexivity|].
  destruct (suggest_link c0 (text e)) as [l|] eqn:El; cbn [print_suggestion] in Hrun;
    [destruct (String.eqb l "")|];
    inversion Hrun; subst sf; simpl; rewrite He, El; repeat split.
Qed.

Lemma candidate_after_assign fs r e l :
  match List.find (fun f => String.eqb (name f) r.1) fs with
  | Some f => data f !! r.2
  | None => None
  end = Some e ->
  In l (flat_map (vote r.2) (assign_in fs r (Some l))).
Proof.
  induction fs as [|f fs IH]; simpl; [discriminate|].
  destruct (String.eqb (name f) r.1) eqn:E; intros H; simpl; apply in_or_app.
  - left. unfold vote, decision, with_data. simpl.
    rewrite lookup_alter_eq, H. simpl. left. reflexivity.
  - right. apply IH, H.
Qed.

(** X13.  When store-link accepts the link for the current entity type, the
    link becomes the link of that entity type and from then on one of the
    links [suggest_link] counts for its surface text, which is therefore no
    longer without a suggestion.  A link that normalizes to the empty link
    is accepted without a request. *)
Theorem store_link_accepted_is_a_candidate
  (s : Annotator) (r : EntRef) (e : EntityType) (l : string) :
  next_entity s = Some r ->
  deref (corpus s) r = Some e ->
  (validate_link requests_get (normalize_link l) s).1 = Ok true ->
  deref (corpus (store_link l s).2) r = Some (with_link (Some (normalize_link l)) e)
  /\ In (normalize_link l) (collect (get_files (corpus (store_link l s).2)) r.2 [])
  /\ suggest_link (corpus (store_link l s).2) r.2 <> None
  /\ (normalize_link l = "" -> requested (store_link l s).2 = requested s).
Proof.
  intros Hr He Hv.
  assert (Hyes : forall s0, corpus s0 = corpus s ->
    let sf := (((annotate r (normalize_link l)) ;; print_next ;;
                (do s <- get;
                 if DEBUG s then
                   for_each (last_five (annotations s)) (fun a => print (annotation_str a))
                 else ret tt)) s0).2 in
    files (corpus sf) = files (assign_link (corpus s) r (Some (normalize_link l)))
    /\ requested sf = requested s0).
  { intros s0 E. cbv zeta.
    rewrite (bind_annotate r e) by (rewrite E; exact He).
    match goal with |- context [(action_print_next _ _ _ ;; ?k) ?s1] =>
      destruct (print_next_then ANSI_BOLD ANSI_END ANSI_BLUE k s1
                  (quiet_debug_tail annotation_str)) as (Hc & _ & _ & Hq & _)
    end.
    simpl in Hc, Hq. rewrite Hc, Hq, E. split; [|reflexivity].
    apply Corpus_next_cursor. }
  assert (Hf : files (corpus (store_link l s).2)
               = files (assign_link (corpus s) r (Some (normalize_link l)))
               /\ (normalize_link l = "" -> requested (store_link l s).2 = requested s)).
  { rewrite validate_link_outcome in Hv. unfold action_store_link.
    rewrite bind_get, Hr, bind_validate_link.
    destruct (String.eqb (normalize_link l) "") eqn:El.
    - destruct (Hyes s eq_refl) as [H1 H2]. split; [exact H1|]. intros _. exact H2.
    - destruct (requests_get (normalize_link l)) as [code|ex]; [|discriminate].
      inversion Hv as [Hc]. rewrite Hc.
      destruct (Hyes (set_requested (requested s ++ [normalize_link l]) s) eq_refl)
        as [H1 _].
      split; [exact H1|]. intros E. apply String.eqb_neq in El. contradiction. }
  destruct Hf as [Hf Hq].
  assert (Hin : In (normalize_link l)
                  (collect (get_files (corpus (store_link l s).2)) r.2 [])).
  { rewrite collect_votes. simpl. unfold get_files. rewrite Hf. simpl.
    apply (candidate_after_assign _ _ e). exact He. }
  split; [|split; [exact Hin|split; [|exact Hq]]].
  - rewrite (deref_same_files (assign_link (corpus s) r (Some (normalize_link l)))).
    + rewrite deref_assign_link, He. reflexivity.
    + exact Hf.
  - assert (Hne : collect (get_files (corpus (store_link l s).2)) r.2 [] <> [])
      by (intros E; rewrite E in Hin; destruct Hin).
    destruct (suggest_link_some _ _ Hne) as (x & Hx & _). rewrite Hx. discriminate.
Qed.

(** ** Unknown commands *)

(** X14.  A command that does not leave the loop and whose first character
    is none of [?], [h], [s], [b], [n], [a], [y], [f], [c] and [l] is
    answered with the unknown-command warning, and with nothing else. *)
Theorem dispatch_unknown_letter (s : Annotator) (ch : ascii) (rest : string) :
  leaves (Some (String ch rest)) = false ->
  existsb (Ascii.eqb ch) command_letters = false ->
  the_dispatch (Some (String ch rest)) s
  = (Ok tt, set_stdout (stdout s ++ [warning Warnings.UNKNOWN_COMMAND]) s).
Proof.
  intros _ H.
  destruct ch as [[] [] [] [] [] [] [] []];
    try (vm_compute in H; discriminate H); reflexivity.
Qed.

(** ** The lines of [status] *)

Lemma status_files_ok fs : forall a b s a' b' s',
  status_files fs a b s = (Ok (a', b'), s') ->
  a' = a + sum_types fs /\ b' = b + sum_types_done fs
  /\ exists lines, length lines = length fs /\ s' = set_stdout (stdout s ++ lines) s.
Proof.
  induction fs as [|f fs IH]; intros a b s a' b' s' H; cbn [status_files] in H.
  - inversion H; subst. simpl. split; [lia|]. split; [lia|].
    exists []. split; [reflexivity|]. symmetry. apply set_stdout_same.
  - unfold sum_types, sum_types_done. cbn [fold_right].
    destruct (file_status f) as [[t d] pc]. cbn [fst snd].
    unfold lift in H. unfold bind at 1 in H.
    destruct (PyNum.round pc) as [x|e]; [|discriminate].
    rewrite bind_print in H.
    destruct (IH _ _ _ _ _ _ H) as (Ha & Hb & lines & Hl & Hs).
    split; [unfold sum_types in Ha; lia|]. split; [unfold sum_types_done in Hb; lia|].
    eexists (_ :: lines). split; [simpl; rewrite Hl; reflexivity|].
    rewrite Hs. unfold set_stdout. simpl. rewrite <- app_assoc. reflexivity.
Qed.

(** X15.  When [status] ends normally, the corpus has at least one entity
    type and what was printed is the heading, one line for each file in the
    order of the corpus, and a last line whose count is the sum of the
    counts of the files and whose percentage is the rounded hundredfold of
    the types done over that sum. *)
Theorem status_reports_sums (s : Annotator) :
  (status s).1 = Ok tt ->
  sum_types (get_files (corpus s)) <> 0
  /\ exists lines q p,
       length lines = length (get_files (corpus s))
       /\ PyNum.true_div (sum_types_done (get_files (corpus s)))
                         (sum_types (get_files (corpus s))) = Ok q
       /\ PyNum.round (PrimFloat.mul q PyNum.hundred) = Ok p
       /\ stdout (status s).2
          = stdout s
            ++ [nl +:+ "Status on " +:+ annotations_folder (corpus s) +:+ nl]
            ++ lines
            ++ ["    " +:+ PyStr.fmt_s_left 39 "" +:+ "  " +:+
                PyStr.fmt_d 4 (sum_types (get_files (corpus s))) +:+ " " +:+
                PyStr.fmt_d 3 p +:+ "%"].
Proof.
  destruct (status s) as [out sf] eqn:Hrun. simpl. intros Hout. subst out.
  unfold status in Hrun. rewrite bind_get, bind_print in Hrun.
  unfold bind at 1 in Hrun.
  match type of Hrun with context [status_files ?fs 0 0 ?s1] =>
    destruct (status_files fs 0 0 s1) as [[[a b]|e] s2] eqn:Hf
  end; [|discriminate].
  destruct (status_files_ok _ _ _ _ _ _ _ Hf) as (Ha & Hb & lines & Hl & Hs).
  subst a b. rewrite !Z.add_0_l in Hrun.
  unfold bind at 1 in Hrun. unfold lift at 1 in Hrun.
  destruct (PyNum.true_div (sum_types_done (get_files (corpus s)))
                           (sum_types (get_files (corpus s)))) as [q|e] eqn:Hq;
    [|discriminate].
  unfold bind at 1 in Hrun. unfold lift at 1 in Hrun.
  destruct (PyNum.round (PrimFloat.mul q PyNum.hundred)) as [p|e] eqn:Hp; [|discriminate].
  inversion Hrun. subst sf. clear Hrun. split.
  - intros Hz. unfold PyNum.true_div in Hq. rewrite Hz in Hq. discriminate.
  - exists lines, q, p. repeat split; try assumption.
    rewrite Hs. simpl. rewrite <- !app_assoc. reflexivity.
Qed.

(** ** The context of a mention *)





End More.

(** ** These properties at the small corpus *)

Lemma no_entity_at_hollow :
  next_entity Demo.hollow = None
  /\ demo_store_link "Jim Lehrer" Demo.hollow
     = (Ok tt,
        set_stdout (stdout Demo.hollow
                    ++ [warning_line Demo.END Demo.RED Warnings.NO_ENTITY]) Demo.hollow).
Proof.
  split; [reflexivity|].
  exact (proj2 (no_entity_only_warns Demo.BOLD Demo.END Demo.RED Demo.BLUE Demo.web
                  Demo.line_of Demo.hollow "Jim Lehrer" eq_refl)).
Defined.

Lemma store_link_offline :
  next_entity Demo.s0 = Some Demo.acme_ref
  /\ normalize_link "Acme Corporation" <> ""
  /\ offline (normalize_link "Acme Corporation") = Raise RequestException
  /\ action_store_link Demo.BOLD Demo.END Demo.RED Demo.BLUE offline Demo.line_of
       "Acme Corporation" Demo.s0
     = (Raise RequestException,
        set_requested (requested Demo.s0 ++ [normalize_link "Acme Corporation"]) Demo.s0).
Proof.
  assert (Hn : normalize_link "Acme Corporation" <> "")
    by (intros H; vm_compute in H; discriminate H).
  split; [reflexivity|]. split; [exact Hn|]. split; [reflexivity|].
  exact (store_link_request_raises Demo.BOLD Demo.END Demo.RED Demo.BLUE offline
           Demo.line_of Demo.s0 Demo.acme_ref "Acme Corporation" RequestException
           eq_refl Hn eq_refl).
Defined.

Lemma accept_hint_with_suggestion :
  next_entity (set_link_suggestion (Some Demo.jim_url) Demo.s0) = Some Demo.acme_ref
  /\ deref (corpus (set_link_suggestion (Some Demo.jim_url) Demo.s0)) Demo.acme_ref
     = Some Demo.acme
  /\ link_suggestion (set_link_suggestion (Some Demo.jim_url) Demo.s0) = Some Demo.jim_url
  /\ requested (demo_accept_hint (set_link_suggestion (Some Demo.jim_url) Demo.s0)).2
     = requested (set_link_suggestion (Some Demo.jim_url) Demo.s0).
Proof.
  split; [reflexivity|]. split; [reflexivity|]. split; [reflexivity|].
  exact (proj1 (accept_hint_annotates_unchecked Demo.BOLD Demo.END Demo.RED Demo.BLUE
                  (set_link_suggestion (Some Demo.jim_url) Demo.s0)
                  Demo.acme_ref Demo.acme Demo.jim_url eq_refl eq_refl eq_refl)).
Defined.

Lemma fix_link_identifier_alone :
  (PyStr.split_once " "%char "3").2 = None
  /\ action_fix_link Demo.END Demo.RED Demo.web "3" Demo.s0 = (Raise ValueError, Demo.s0).
Proof.
  split; [reflexivity|].
  exact (fix_link_without_link_raises Demo.END Demo.RED Demo.web Demo.s0 "3" eq_refl).
Defined.

Lemma fix_link_rejected_at_seven :
  PyStr.split_once " "%char "7 Acme Corporation" = ("7", Some "Acme Corporation")
  /\ PyStr.int "7" = Some 7
  /\ normalize_link "Acme Corporation" <> ""
  /\ Demo.web (normalize_link "Acme Corporation") = Ok 404
  /\ 404 <> 200
  /\ annotations (action_fix_link Demo.END Demo.RED Demo.web "7 Acme Corporation" Demo.s0).2
     = annotations Demo.s0.
Proof.
  assert (Hn : normalize_link "Acme Corporation" <> "")
    by (intros H; vm_compute in H; discriminate H).
  assert (Hw : Demo.web (normalize_link "Acme Corporation") = Ok 404)
    by (vm_compute; reflexivity).
  assert (Hc : 404 <> 200) by lia.
  split; [reflexivity|]. split; [reflexivity|]. split; [exact Hn|].
  split; [exact Hw|]. split; [exact Hc|].
  rewrite (fix_link_rejected_link Demo.END Demo.RED Demo.web Demo.s0
             "7 Acme Corporation" "7" "Acme Corporation" 7 404
             eq_refl eq_refl Hn Hw Hc).
  reflexivity.
Defined.

Lemma loop_without_quit :
  Forall (fun line => leaves (Some (PyStr.strip line)) = false) ["n"; "s"]
  /\ (demo_loop ["n"; "s"] Demo.s0).1 <> Ok tt.
Proof.
  assert (H : Forall (fun line => leaves (Some (PyStr.strip line)) = false) ["n"; "s"])
    by (repeat constructor).
  split; [exact H|].
  exact (loop_ends_normally_on_quit_only Demo.BOLD Demo.END Demo.RED Demo.BLUE Demo.PROMPT
           Demo.web Demo.help Demo.line_of Demo.line_of Demo.entity_str
           ["n"; "s"] Demo.s0 H).
Defined.

Lemma loop_after_quit :
  leaves (Some (PyStr.strip " quit ")) = true
  /\ demo_loop (["s"] ++ " quit " :: ["n"; "l Jim Lehrer"]) Demo.s0
     = demo_loop (["s"] ++ [" quit "]) Demo.s0.
Proof.
  split; [reflexivity|].
  exact (loop_stops_reading_at_quit Demo.BOLD Demo.END Demo.RED Demo.BLUE Demo.PROMPT
           Demo.web Demo.help Demo.line_of Demo.line_of Demo.entity_str
           ["s"] ["n"; "l Jim Lehrer"] " quit " Demo.s0 eq_refl).
Defined.

Lemma majority_at_voted :
  (1 <= files_holding Demo.voted "Jim Lehrer" Demo.jim_url)%nat
  /\ (forall l', l' <> Demo.jim_url ->
        (files_holding Demo.voted "Jim Lehrer" l'
         < files_holding Demo.voted "Jim Lehrer" Demo.jim_url)%nat)
  /\ suggest_link Demo.voted "Jim Lehrer" = Some Demo.jim_url.
Proof.
  assert (E : flat_map (vote "Jim Lehrer") (get_files Demo.voted)
              = [Demo.james_url; Demo.jim_url; Demo.jim_url])
    by (vm_compute; reflexivity).
  assert (Hj : files_holding Demo.voted "Jim Lehrer" Demo.jim_url = 2%nat)
    by (vm_compute; reflexivity).
  assert (Hin : (1 <= files_holding Demo.voted "Jim Lehrer" Demo.jim_url)%nat)
    by (rewrite Hj; lia).
  assert (Hmaj : forall l', l' <> Demo.jim_url ->
            (files_holding Demo.voted "Jim Lehrer" l'
             < files_holding Demo.voted "Jim Lehrer" Demo.jim_url)%nat).
  { intros l' Hl. rewrite Hj. unfold files_holding. rewrite <- count_votes, E.
    pose proof (proj2 (counts_at_voted l') Hl). lia. }
  split; [exact Hin|]. split; [exact Hmaj|].
  exact (suggest_link_strict_majority Demo.voted "Jim Lehrer" Demo.jim_url Hin Hmaj).
Defined.

Lemma print_next_at_acme :
  (action_print_next Demo.BOLD Demo.END Demo.BLUE Demo.s0).1 = Ok tt
  /\ exists r e,
       (Corpus_next (annotations Demo.s0) (corpus Demo.s0)).1 = Some r
       /\ next_entity (action_print_next Demo.BOLD Demo.END Demo.BLUE Demo.s0).2 = Some r
       /\ deref (corpus (action_print_next Demo.BOLD Demo.END Demo.BLUE Demo.s0).2) r = Some e
       /\ link_suggestion (action_print_next Demo.BOLD Demo.END Demo.BLUE Demo.s0).2
          = suggest_link (corpus (action_print_next Demo.BOLD Demo.END Demo.BLUE Demo.s0).2)
              (text e).
Proof.
  assert (H : (action_print_next Demo.BOLD Demo.END Demo.BLUE Demo.s0).1 = Ok tt)
    by (vm_compute; reflexivity).
  split; [exact H|].
  exact (print_next_suggests_for_current Demo.BOLD Demo.END Demo.BLUE Demo.s0 H).
Defined.

Lemma store_link_accepted_at_acme :
  next_entity Demo.s0 = Some Demo.acme_ref
  /\ deref (corpus Demo.s0) Demo.acme_ref = Some Demo.acme
  /\ (validate_link Demo.web (normalize_link "James Lehrer") Demo.s0).1 = Ok true
  /\ suggest_link (corpus (demo_store_link "James Lehrer" Demo.s0).2) Demo.acme_ref.2 <> None.
Proof.
  assert (Hv : (validate_link Demo.web (normalize_link "James Lehrer") Demo.s0).1 = Ok true)
    by (vm_compute; reflexivity).
  split; [reflexivity|]. split; [reflexivity|]. split; [exact Hv|].
  exact (proj1 (proj2 (proj2 (store_link_accepted_is_a_candidate
           Demo.BOLD Demo.END Demo.RED Demo.BLUE Demo.web Demo.line_of
           Demo.s0 Demo.acme_ref Demo.acme "James Lehrer" eq_refl eq_refl Hv)))).
Defined.

Lemma dispatch_unknown_x :
  leaves (Some "xyz") = false
  /\ existsb (Ascii.eqb "x"%char) command_letters = false
  /\ dispatch Demo.BOLD Demo.END Demo.RED Demo.BLUE Demo.web Demo.help Demo.line_of
       Demo.line_of (Some "xyz") Demo.s0
     = (Ok tt,
        set_stdout (stdout Demo.s0
                    ++ [warning_line Demo.END Demo.RED Warnings.UNKNOWN_COMMAND]) Demo.s0).
Proof.
  split; [reflexivity|]. split; [reflexivity|].
  exact (dispatch_unknown_letter Demo.BOLD Demo.END Demo.RED Demo.BLUE Demo.web Demo.help
           Demo.line_of Demo.line_of Demo.s0 "x"%char "yz" eq_refl eq_refl).
Defined.

(** A command that starts like one that leaves but is not one of them. *)
Example dispatch_quitx_ex :
  (demo_loop ["quitx"; "q"] Demo.s0).1 = Ok tt
  /\ existsb (String.eqb (warning_line Demo.END Demo.RED Warnings.UNKNOWN_COMMAND))
       (stdout (demo_loop ["quitx"; "q"] Demo.s0).2) = true.
Proof. split; vm_compute; reflexivity. Qed.

Lemma status_sums_at_complete :
  (status Demo.complete).1 = Ok tt
  /\ sum_types (get_files (corpus Demo.complete)) <> 0.
Proof.
  assert (H : (status Demo.complete).1 = Ok tt) by (vm_compute; reflexivity).
  split; [exact H|]. exact (proj1 (status_reports_sums Demo.complete H)).
Defined.

